(** * gpu_top: the acquisition and reconciliation pipeline of [gpu_top.py]

    A shallow embedding of [run_cmd], [parse_csv], [get_gpu_stats],
    [get_compute_processes], [get_pmon_once], [enrich_procs_with_pmon] and
    [snapshot], followed by the properties of the pipeline.

    Conventions.
    - Text is a [string]: a sequence of characters with code points below 256.
    - A Python [int] is a [Z]; [None] is the [None] of [option].
    - A [dict] is a [gmap]; a comprehension or loop that stores into it is a
      left fold of inserts, so that a later entry overwrites an earlier one.
    - A [try: ... except Exception: continue] around a row is the [option]
      monad: [None] is the raised exception, the row is then skipped.
    - Python's [float(...)] is kept abstract (a type and a partial conversion),
      and so are the operating system ([subprocess.check_output]) and the
      UTF-8 decoder. *)

From Stdlib Require Import ZArith NArith Ascii String List Sorted Permutation.
From stdpp Require Import base option list gmap strings fin_maps sorting.

Local Open Scope string_scope.
Local Open Scope list_scope.
Local Open Scope Z_scope.

(** ** Python's text built-ins *)

Module Py.

(** [str.isspace] on code points below 256: the characters removed by
    [str.strip()] and separating the fields of [str.split()]. *)
Definition is_space (c : ascii) : bool :=
  let n := N_of_ascii c in
  ((9 <=? n) && (n <=? 13) || (28 <=? n) && (n <=? 32)
   || (n =? 133) || (n =? 160))%N.

(** The line boundaries of [str.splitlines()] below 256; a carriage return
    followed by a line feed counts once. *)
Definition is_linebreak (c : ascii) : bool :=
  let n := N_of_ascii c in
  ((10 <=? n) && (n <=? 13) || (28 <=? n) && (n <=? 30) || (n =? 133))%N.

(** The blanks skipped by [int(...)] around a literal. *)
Definition is_int_space (c : ascii) : bool :=
  let n := N_of_ascii c in
  ((9 <=? n) && (n <=? 13) || (n =? 32) || (n =? 133) || (n =? 160))%N.

Definition is_digit (c : ascii) : bool :=
  let n := N_of_ascii c in ((48 <=? n) && (n <=? 57))%N.

Definition digit_val (c : ascii) : Z := Z.of_N (N_of_ascii c) - 48.

Definition is_empty (s : string) : bool :=
  match s with EmptyString => true | String _ _ => false end.

Fixpoint lstrip_by (p : ascii -> bool) (s : string) : string :=
  match s with
  | EmptyString => EmptyString
  | String c s' => if p c then lstrip_by p s' else s
  end.

Fixpoint rstrip_by (p : ascii -> bool) (s : string) : string :=
  match s with
  | EmptyString => EmptyString
  | String c s' =>
      let r := rstrip_by p s' in
      if p c && is_empty r then EmptyString else String c r
  end.

(** [s.strip()] *)
Definition strip (s : string) : string := lstrip_by is_space (rstrip_by is_space s).

(** Adds a character in front of the first piece. *)
Definition cons_char (c : ascii) (l : list string) : list string :=
  match l with
  | [] => [String c EmptyString]
  | h :: t => String c h :: t
  end.

(** [s.split(sep)] for a one-character separator: one piece more than there
    are separators, empty pieces kept. *)
Fixpoint split_on (sep : ascii) (s : string) : list string :=
  match s with
  | EmptyString => [EmptyString]
  | String c s' =>
      if Ascii.eqb c sep then EmptyString :: split_on sep s'
      else cons_char c (split_on sep s')
  end.

Fixpoint split_where (p : ascii -> bool) (s : string) : list string :=
  match s with
  | EmptyString => [EmptyString]
  | String c s' =>
      if p c then EmptyString :: split_where p s'
      else cons_char c (split_where p s')
  end.

(** [s.split()]: the maximal runs of characters that are not blanks. *)
Definition split (s : string) : list string :=
  List.filter (fun t => negb (is_empty t)) (split_where is_space s).

(** [s.splitlines()]. [skip_lf] holds right after a carriage return. *)
Fixpoint splitlines_from (skip_lf : bool) (s : string) : list string :=
  match s with
  | EmptyString => []
  | String c s' =>
      if skip_lf && Ascii.eqb c "010" then splitlines_from false s'
      else if is_linebreak c
           then EmptyString :: splitlines_from (Ascii.eqb c "013") s'
           else cons_char c (splitlines_from false s')
  end.

Definition splitlines (s : string) : list string := splitlines_from false s.

(** [s.startswith(c)] for a one-character prefix. *)
Definition startswith (c : ascii) (s : string) : bool :=
  match s with
  | EmptyString => false
  | String d _ => Ascii.eqb d c
  end.

(** [os.path.basename]: what follows the last slash. *)
Fixpoint basename (s : string) : string :=
  match s with
  | EmptyString => EmptyString
  | String c s' =>
      if existsb (Ascii.eqb "/") (list_ascii_of_string s') then basename s'
      else if Ascii.eqb c "/" then s' else s
  end.

(** *** [int(s)] in base ten

    Blanks around the literal are skipped, one sign is allowed, the digits
    may be grouped by single underscores, and a literal of more than
    [int_max_str_digits] digits is refused (the interpreter's default
    limit). [None] is [ValueError]. *)

Definition int_max_str_digits : nat := 4300.

Inductive int_prev := AtStart | AfterDigit | AfterUnderscore.

Fixpoint int_digits (prev : int_prev) (acc : Z) (n : nat) (s : string)
  : option (Z * nat) :=
  match s with
  | EmptyString =>
      match prev with AfterDigit => Some (acc, n) | _ => None end
  | String c s' =>
      if is_digit c then int_digits AfterDigit (10 * acc + digit_val c) (S n) s'
      else if Ascii.eqb c "_"
           then match prev with
                | AfterDigit => int_digits AfterUnderscore acc n s'
                | _ => None
                end
           else None
  end.

Definition int_unsigned (s : string) : option Z :=
  match int_digits AtStart 0 0%nat s with
  | Some (v, n) => if (n <=? int_max_str_digits)%nat then Some v else None
  | None => None
  end.

Definition int (s : string) : option Z :=
  match lstrip_by is_int_space (rstrip_by is_int_space s) with
  | String "+" d => int_unsigned d
  | String "-" d => Z.opp <$> int_unsigned d
  | d => int_unsigned d
  end.

End Py.

(** ** Exceptions, and [shlex.split] *)

Definition bytes : Type := list Byte.byte.

(** The exception classes the pipeline can meet. *)
Inductive exn :=
| ValueError (msg : string)
| CalledProcessError (returncode : Z) (output : bytes)
| FileNotFoundError
| PermissionError
| OtherError (name : string).

(** The result of a call: a value, or a raised exception. *)
Inductive outcome (A : Type) :=
| Return (a : A)
| Raise (e : exn).
Arguments Return {A} a.
Arguments Raise {A} e.

#[global] Instance outcome_ret : MRet outcome := fun A a => Return a.
#[global] Instance outcome_bind : MBind outcome := fun A B f m =>
  match m with
  | Return a => f a
  | Raise e => Raise e
  end.

Module Shlex.

(** The states of [shlex.read_token] that POSIX mode with
    [whitespace_split] and no comment characters can reach: [' '], ['a'],
    inside a quote, and after an escape character (with [escapedstate],
    [None] standing for ['a']). *)
Inductive state :=
| InSpace
| InWord
| InQuote (q : ascii)
| InEscape (escapedstate : option ascii).

Definition is_whitespace (c : ascii) : bool :=
  Ascii.eqb c " " || Ascii.eqb c "009" || Ascii.eqb c "013" || Ascii.eqb c "010".
Definition dquote : ascii := "034".
Definition is_quote (c : ascii) : bool := Ascii.eqb c "'" || Ascii.eqb c dquote.
Definition is_escape (c : ascii) : bool := Ascii.eqb c "\".

Definition snoc_char (tok : string) (c : ascii) : string :=
  (tok ++ String c EmptyString)%string.

(** What [read_token] hands over when it stops: nothing if the token is
    empty and no quote was seen. *)
Definition emit (tok : string) (quoted : bool) : list string :=
  if negb (Py.is_empty tok) || quoted then [tok] else [].

(** All the tokens of the input, or the [ValueError] of an unclosed quote
    or of a trailing escape character. [tok] and [quoted] are the token
    being read and its flag; both are reset when a token is handed over. *)
Fixpoint tokens (st : state) (tok : string) (quoted : bool) (s : string)
  : outcome (list string) :=
  match s with
  | EmptyString =>
      match st with
      | InSpace | InWord => Return (emit tok quoted)
      | InQuote _ => Raise (ValueError "No closing quotation")
      | InEscape _ => Raise (ValueError "No escaped character")
      end
  | String c s' =>
      match st with
      | InSpace =>
          if is_whitespace c then
            if negb (Py.is_empty tok) || quoted
            then l ← tokens InSpace EmptyString false s'; Return (tok :: l)
            else tokens InSpace tok quoted s'
          else if is_escape c then tokens (InEscape None) tok quoted s'
          else if is_quote c then tokens (InQuote c) tok quoted s'
          else tokens InWord (String c EmptyString) quoted s'
      | InQuote q =>
          if Ascii.eqb c q then tokens InWord tok true s'
          else if is_escape c && Ascii.eqb q dquote
               then tokens (InEscape (Some q)) tok true s'
               else tokens (InQuote q) (snoc_char tok c) true s'
      | InEscape escapedstate =>
          let tok1 :=
            match escapedstate with
            | Some q =>
                if negb (is_escape c) && negb (Ascii.eqb c q)
                then snoc_char tok "\" else tok
            | None => tok
            end in
          tokens (match escapedstate with Some q => InQuote q | None => InWord end)
                 (snoc_char tok1 c) quoted s'
      | InWord =>
          if is_whitespace c then
            if negb (Py.is_empty tok) || quoted
            then l ← tokens InSpace EmptyString false s'; Return (tok :: l)
            else tokens InSpace tok quoted s'
          else if is_quote c then tokens (InQuote c) tok quoted s'
          else if is_escape c then tokens (InEscape None) tok quoted s'
          else tokens InWord (snoc_char tok c) quoted s'
      end
  end.

(** [shlex.split(s)] *)
Definition split (s : string) : outcome (list string) :=
  tokens InSpace EmptyString false s.

End Shlex.

(** ** The records of the pipeline

    The dictionaries built by the three readers, one field per key. *)

(** An entry of [get_gpu_stats]; [F] is the type of Python floats. *)
Record gpu (F : Type) := mk_gpu {
  g_uuid : string;
  g_index : Z;
  g_name : string;
  g_temp : Z;
  g_util : Z;
  g_mem_used : Z;
  g_mem_total : Z;
  g_pwr : option F;
  g_pwr_lim : option F;
  g_sm_clock : option Z;
  g_fan : option Z
}.
Arguments mk_gpu {F}.
Arguments g_uuid {F}.
Arguments g_index {F}.
Arguments g_name {F}.
Arguments g_temp {F}.
Arguments g_util {F}.
Arguments g_mem_used {F}.
Arguments g_mem_total {F}.
Arguments g_pwr {F}.
Arguments g_pwr_lim {F}.
Arguments g_sm_clock {F}.
Arguments g_fan {F}.

(** An entry of [get_compute_processes]: keys [pid], [name], [mem], [uuid],
    [sm], [mem_util]. *)
Record proc := mk_proc {
  p_pid : Z;
  p_name : string;
  p_mem : Z;
  p_uuid : string;
  p_sm : option Z;
  p_mem_util : option Z
}.

(** An entry of [get_pmon_once]: keys [gpu], [pid], [sm], [mem], [cmd]. *)
Record pmon_entry := mk_pmon {
  e_gpu : Z;
  e_pid : option Z;
  e_sm : option Z;
  e_mem : option Z;
  e_cmd : string
}.

(** A key of the lookup of [enrich_procs_with_pmon]: a pair whose components
    may be [None]. *)
Abbreviation pmon_key := (option Z * option Z)%type.

(** ** The readers *)

(** [parse_csv(lines)] *)
Definition parse_csv (lines : string) : list (list string) :=
  omap (fun ln =>
          if Py.is_empty (Py.strip ln) then None
          else Some (Py.strip <$> Py.split_on "," ln))
       (Py.splitlines (Py.strip lines)).

(** [conv(s) if s != 'N/A' else None] *)
Definition unless_na {A} (conv : string -> option A) (s : string)
  : option (option A) :=
  if decide (s = "N/A") then Some None else Some <$> conv s.

Section Readers.
Context {F : Type}.
(** [float(s)]; [None] is [ValueError]. *)
Variable py_float : string -> option F.

(** The body of the [try] of [get_gpu_stats] for one row [r]; [None] is
    the exception that makes the loop skip the row ([IndexError] for a
    missing column, [ValueError] for a failed conversion). *)
Definition gpu_of_row (r : list string) : option (gpu F) :=
  uuid ← r !! 0%nat;
  index ← r !! 1%nat ≫= Py.int;
  name ← r !! 2%nat;
  temp ← r !! 3%nat ≫= Py.int;
  util ← r !! 4%nat ≫= Py.int;
  mem_used ← r !! 5%nat ≫= Py.int;
  mem_total ← r !! 6%nat ≫= Py.int;
  pwr ← r !! 7%nat ≫= unless_na py_float;
  pwr_lim ← r !! 8%nat ≫= unless_na py_float;
  sm_clock ← r !! 9%nat ≫= unless_na Py.int;
  fan ← (if bool_decide (10 < length r)%nat
         then r !! 10%nat ≫= unless_na Py.int
         else Some None);
  Some (mk_gpu uuid index name temp util mem_used mem_total
               pwr pwr_lim sm_clock fan).

(** The loop of [get_gpu_stats] over the rows. *)
Definition gpu_stats_of_rows (rows : list (list string)) : list (gpu F) :=
  omap gpu_of_row rows.

(** [get_gpu_stats()] from the text [out] that [run_cmd] returned. *)
Definition gpu_stats_of (out : string) : list (gpu F) :=
  gpu_stats_of_rows (parse_csv out).
End Readers.

(** The body of the [try] of [get_compute_processes] for one row. *)
Definition proc_of_row (r : list string) : option proc :=
  pid ← r !! 0%nat ≫= Py.int;
  r1 ← r !! 1%nat;
  let name := if Py.is_empty r1 then "-" else Py.basename r1 in
  r2 ← r !! 2%nat;
  mem ← (if decide (r2 = "N/A") then Some 0 else Py.int r2);
  uuid ← r !! 3%nat;
  Some (mk_proc pid name mem uuid None None).

(** [get_compute_processes()] from the text that [run_cmd] returned. *)
Definition compute_processes_of (out : string) : list proc :=
  omap proc_of_row (parse_csv out).

(** The [try] of [get_pmon_once] on the fields [parts] of one line. *)
Definition pmon_of_parts (parts : list string) : option pmon_entry :=
  gpu_idx ← parts !! 0%nat ≫= Py.int;
  p1 ← parts !! 1%nat;
  pid ← (if decide (p1 = "-") then Some None else Some <$> Py.int p1);
  p3 ← parts !! 3%nat;
  sm ← (if decide (p3 = "-") then Some None else Some <$> Py.int p3);
  p4 ← parts !! 4%nat;
  mem ← (if decide (p4 = "-") then Some None else Some <$> Py.int p4);
  cmd ← (if bool_decide (9 <= length parts)%nat then parts !! 8%nat
         else Some EmptyString);
  Some (mk_pmon gpu_idx pid sm mem cmd).

(** One turn of the loop of [get_pmon_once]: [None] when the line is
    skipped, by a [continue] or by the [except]. *)
Definition pmon_of_line (ln : string) : option pmon_entry :=
  let ln := Py.strip ln in
  if Py.is_empty ln || Py.startswith "#" ln then None
  else
    let parts := Py.split ln in
    if bool_decide (length parts < 9)%nat then None
    else pmon_of_parts parts.

Definition pmon_of_lines (lines : list string) : list pmon_entry :=
  omap pmon_of_line lines.

(** [get_pmon_once()] from the text that [run_cmd] returned. *)
Definition pmon_of (out : string) : list pmon_entry :=
  pmon_of_lines (Py.splitlines out).

(** ** The reconciler *)

(** [{(e['gpu'], e['pid']): e for e in pmon if e['pid'] is not None}] *)
Definition pmon_index (pmon : list pmon_entry) : gmap pmon_key pmon_entry :=
  foldl (fun ix e => <[(Some (e_gpu e), e_pid e) := e]> ix) ∅
        (filter (fun e => e_pid e ≠ None) pmon).

(** The body of the loop of [enrich_procs_with_pmon] for one process. *)
Definition enrich_proc (ix : gmap pmon_key pmon_entry)
    (uuid_to_index : gmap string Z) (p : proc) : proc :=
  let gpu_idx := uuid_to_index !! p_uuid p in
  let key := (gpu_idx, Some (p_pid p)) in
  match ix !! key with
  | Some e => mk_proc (p_pid p) (p_name p) (p_mem p) (p_uuid p) (e_sm e) (e_mem e)
  | None => p
  end.

(** [enrich_procs_with_pmon(procs, pmon, uuid_to_index)] *)
Definition enrich_procs_with_pmon (procs : list proc) (pmon : list pmon_entry)
    (uuid_to_index : gmap string Z) : list proc :=
  let ix := pmon_index pmon in
  enrich_proc ix uuid_to_index <$> procs.

(** [x or 0] for an integer or [None]. *)
Definition or_zero (x : option Z) : Z :=
  match x with
  | Some v => if decide (v = 0) then 0 else v
  | None => 0
  end.

(** The sort key [(x['sm'] or 0, x['mem'] or 0)]. *)
Definition sort_key (x : proc) : Z * Z :=
  (or_zero (p_sm x), or_zero (Some (p_mem x))).

(** [a < b] on pairs of integers. *)
Definition pair_ltb (a b : Z * Z) : bool :=
  (a.1 <? b.1) || (a.1 =? b.1) && (a.2 <? b.2).

(** [l.sort(key=sort_key, reverse=True)]: a stable sort, largest key first;
    records with equal keys keep the order they had. *)
Fixpoint insert_desc (x : proc) (l : list proc) : list proc :=
  match l with
  | [] => [x]
  | y :: l' =>
      if pair_ltb (sort_key x) (sort_key y) then y :: insert_desc x l'
      else x :: l
  end.

Definition sort_desc (l : list proc) : list proc := foldr insert_desc [] l.

Section Reconciler.
Context {F : Type}.

(** [{g['uuid']: g['index'] for g in gpus}] *)
Definition uuid_index_map (gpus : list (gpu F)) : gmap string Z :=
  foldl (fun m g => <[g_uuid g := g_index g]> m) ∅ gpus.

(** The first loop over [gpus]: [per_gpu[g['index']] = []]. *)
Definition empty_groups (gpus : list (gpu F)) : gmap Z (list proc) :=
  foldl (fun m g => <[g_index g := []]> m) ∅ gpus.

(** One turn of the loop over [procs]. *)
Definition group_proc (uuid_to_index : gmap string Z)
    (per_gpu : gmap Z (list proc)) (p : proc) : gmap Z (list proc) :=
  match uuid_to_index !! p_uuid p with
  | Some idx =>
      if decide (is_Some (per_gpu !! idx))
      then alter (fun l => l ++ [p]) idx per_gpu
      else per_gpu
  | None => per_gpu
  end.

(** [per_gpu] when the loop over [procs] is over, before the sort. *)
Definition per_gpu_unsorted (gpus : list (gpu F)) (procs : list proc)
    (pmon : list pmon_entry) : gmap Z (list proc) :=
  let uuid_to_index := uuid_index_map gpus in
  foldl (group_proc uuid_to_index) (empty_groups gpus)
        (enrich_procs_with_pmon procs pmon uuid_to_index).

(** [snapshot()] once the three readers have returned. *)
Definition snapshot_of (gpus : list (gpu F)) (procs : list proc)
    (pmon : list pmon_entry) : list (gpu F) * gmap Z (list proc) :=
  let uuid_to_index := uuid_index_map gpus in
  let procs := enrich_procs_with_pmon procs pmon uuid_to_index in
  let per_gpu := empty_groups gpus in
  let per_gpu := foldl (group_proc uuid_to_index) per_gpu procs in
  let per_gpu := sort_desc <$> per_gpu in
  (gpus, per_gpu).
End Reconciler.

(** ** The process executor and the calls of the external tool *)

Definition gpu_fields : list string :=
  ["uuid"; "index"; "name"; "temperature.gpu"; "utilization.gpu";
   "memory.used"; "memory.total"; "power.draw"; "power.limit";
   "clocks.sm"; "fan.speed"].
Definition gpu_cmd : string :=
  ("nvidia-smi --query-gpu=" ++ String.concat "," gpu_fields
   ++ " --format=csv,noheader,nounits")%string.

Definition proc_fields : list string :=
  ["pid"; "process_name"; "used_memory"; "gpu_uuid"].
Definition proc_cmd : string :=
  ("nvidia-smi --query-compute-apps=" ++ String.concat "," proc_fields
   ++ " --format=csv,noheader,nounits")%string.

Definition pmon_cmd : string := "nvidia-smi pmon -c 1 -s um".

Section Executor.
Context {F : Type}.
Variable py_float : string -> option F.
(** [b.decode('utf-8', errors='ignore')] *)
Variable decode : bytes -> string.
(** [subprocess.check_output(argv, stderr=subprocess.STDOUT)]: the merged
    output of the child, or the exception the call raises. *)
Variable check_output : list string -> outcome bytes.

(** [run_cmd(cmd)] *)
Definition run_cmd (cmd : string) : outcome string :=
  match Shlex.split cmd ≫= check_output with
  | Return out => Return (decode out)
  | Raise (CalledProcessError _ output) => Return (decode output)
  | Raise FileNotFoundError => Return EmptyString
  | Raise e => Raise e
  end.

Definition get_gpu_stats : outcome (list (gpu F)) :=
  out ← run_cmd gpu_cmd; Return (gpu_stats_of py_float out).

Definition get_compute_processes : outcome (list proc) :=
  out ← run_cmd proc_cmd; Return (compute_processes_of out).

Definition get_pmon_once : outcome (list pmon_entry) :=
  out ← run_cmd pmon_cmd; Return (pmon_of out).

(** [snapshot()] *)
Definition snapshot : outcome (list (gpu F) * gmap Z (list proc)) :=
  gpus ← get_gpu_stats;
  procs ← get_compute_processes;
  pmon ← get_pmon_once;
  Return (snapshot_of gpus procs pmon).
End Executor.

(** ** Running the model

    A conversion to run the readers on concrete texts: plain decimal
    literals ([12], [-3.50]), valued exactly as a mantissa and a number of
    decimals. *)
Definition decimal_float (s : string) : option (Z * nat) :=
  match Py.split_on "." s with
  | [ip] => m ← Py.int ip; Some (m, 0%nat)
  | [ip; fp] =>
      if forallb Py.is_digit (list_ascii_of_string fp) && negb (Py.is_empty fp)
      then m ← Py.int (ip ++ fp)%string; Some (m, String.length fp)
      else None
  | _ => None
  end.

(** A line feed between two lines of text. *)
Definition nl (a b : string) : string := (a ++ String "010" b)%string.

(** ** Vocabulary of the statements *)

(** Column [i] of the row holds a text that [conv] turns into [v]. *)
Definition field_is {A} (conv : string -> option A) (r : list string)
    (i : nat) (v : A) : Prop :=
  exists s, r !! i = Some s /\ conv s = Some v.

(** Column [i] holds the [N/A] token and [v] is null, or a text that
    [conv] turns into the value of [v]. *)
Definition optional_is {A} (conv : string -> option A) (r : list string)
    (i : nat) (v : option A) : Prop :=
  exists s, r !! i = Some s /\
    (s = "N/A" /\ v = None \/ s <> "N/A" /\ exists x, conv s = Some x /\ v = Some x).

(** The first ten columns of a device row are, field for field, those of [g]. *)
Definition gpu_fields_convert {F} (py_float : string -> option F)
    (r : list string) (g : gpu F) : Prop :=
  r !! 0%nat = Some (g_uuid g)
  /\ field_is Py.int r 1 (g_index g)
  /\ r !! 2%nat = Some (g_name g)
  /\ field_is Py.int r 3 (g_temp g)
  /\ field_is Py.int r 4 (g_util g)
  /\ field_is Py.int r 5 (g_mem_used g)
  /\ field_is Py.int r 6 (g_mem_total g)
  /\ optional_is py_float r 7 (g_pwr g)
  /\ optional_is py_float r 8 (g_pwr_lim g)
  /\ optional_is Py.int r 9 (g_sm_clock g).

(** A well-formed device row and its record: the ten columns above, and a
    fan speed that is null when the eleventh column is absent. *)
Definition gpu_row_converts {F} (py_float : string -> option F)
    (r : list string) (g : gpu F) : Prop :=
  gpu_fields_convert py_float r g
  /\ (r !! 10%nat = None /\ g_fan g = None \/ optional_is Py.int r 10 (g_fan g)).

(** A required integer column (index, temperature, utilization, memory
    used, memory total) is missing or fails to convert. *)
Definition required_field_fails (r : list string) : Prop :=
  exists i, i ∈ [1; 3; 4; 5; 6]%nat /\ r !! i ≫= Py.int = None.

(** Field [i] of a monitoring row is neither the [-] token nor an integer. *)
Definition bad_int_field (parts : list string) (i : nat) : Prop :=
  exists s, parts !! i = Some s /\ s <> "-" /\ Py.int s = None.

(** The fields of a line of the monitoring sample. *)
Definition pmon_parts (ln : string) : list string := Py.split (Py.strip ln).

(** Field [i] is the [-] token and [v] is null, or an integer and [v] is it. *)
Definition dash_or_int (parts : list string) (i : nat) (v : option Z) : Prop :=
  exists s, parts !! i = Some s /\
    (s = "-" /\ v = None \/ s <> "-" /\ exists x, Py.int s = Some x /\ v = Some x).

(** The sample [e] has the join key of the process [p]: the device index
    that the uuid of [p] resolves to, and its pid. *)
Definition shares_key (uuid_to_index : gmap string Z) (p : proc)
    (e : pmon_entry) : Prop :=
  uuid_to_index !! p_uuid p = Some (e_gpu e) /\ e_pid e = Some (p_pid p).

#[global] Instance shares_key_dec uuid_to_index p e :
  Decision (shares_key uuid_to_index p e).
Proof. unfold shares_key. apply _. Defined.

(** [p] with its two utilization fields taken from the sample [e]. *)
Definition with_util (p : proc) (e : pmon_entry) : proc :=
  mk_proc (p_pid p) (p_name p) (p_mem p) (p_uuid p) (e_sm e) (e_mem e).

(** [(a.sm ?? 0, a.mem)]: the utilization with null read as zero, then the
    memory in MiB. *)
Definition order_key (a : proc) : Z * Z := (default 0 (p_sm a), p_mem a).

(** [a >= b] on pairs, lexicographically. *)
Definition lex_ge (a b : Z * Z) : Prop :=
  b.1 < a.1 \/ (a.1 = b.1 /\ b.2 <= a.2).

(** The order that two neighbours of a device's process sequence respect. *)
Definition before (a b : proc) : Prop := lex_ge (order_key a) (order_key b).

(** ** A canned external tool

    An environment to run [snapshot] in: [nvidia-smi] answers the device
    query with [d], the process query with [p] and the monitoring sample
    with [m]; the bytes are ASCII and decoded as such. *)
Definition canned_tool (d p m : string) (argv : list string) : outcome bytes :=
  match argv with
  | [_; a; _] =>
      if String.prefix "--query-gpu=" a then Return (list_byte_of_string d)
      else Return (list_byte_of_string p)
  | _ => Return (list_byte_of_string m)
  end.

Definition ascii_decode (b : bytes) : string := string_of_list_byte b.

(** ** Sample tool outputs *)

(** Three device rows: a full one, one with an unreadable temperature, and
    one that stops before the fan-speed column. *)
Definition dev_row_a : string :=
  "GPU-a, 0, Tesla T4, 40, 10, 100, 15360, 27.50, 70.00, 585, 35".
Definition dev_row_b : string :=
  "GPU-b, 1, Tesla T4, hot, 10, 100, 15360, N/A, N/A, N/A, N/A".
Definition dev_row_c : string :=
  "GPU-c, 2, A100, 50, 90, 2000, 40960, N/A, N/A, 1410".
Definition dev_sample : string := nl dev_row_a (nl dev_row_b dev_row_c).

Definition gpu_a : gpu (Z * nat) :=
  mk_gpu "GPU-a" 0 "Tesla T4" 40 10 100 15360
         (Some (2750, 2%nat)) (Some (7000, 2%nat)) (Some 585) (Some 35).
Definition gpu_c : gpu (Z * nat) :=
  mk_gpu "GPU-c" 2 "A100" 50 90 2000 40960 None None (Some 1410) None.

(** A monitoring sample: the header, a busy slot, an idle slot (every
    column but the device index is the [-] token), and a slot whose sm
    column is unreadable. *)
Definition pmon_header : string :=
  "# gpu        pid  type    sm   mem   enc   dec    fb   command".
Definition pmon_busy : string :=
  "    0        100     C    80    40     -     -   512   python".
Definition pmon_idle : string :=
  "    1          -     -     -     -     -     -     -   -".
Definition pmon_garbled : string :=
  "    0        300     C   n/a    40     -     -   128   blender".
Definition pmon_sample : string :=
  nl pmon_header (nl pmon_busy (nl pmon_idle pmon_garbled)).

(** One device, two processes on it, and two monitoring samples for the
    first process: one with readings, one whose sm and mem columns are
    the [-] token. *)
Definition join_dev : string :=
  "GPU-1, 0, Tesla T4, 40, 10, 100, 15360, N/A, N/A, N/A, N/A".
Definition join_procs : string :=
  nl "100, /usr/bin/python, 512, GPU-1" "200, /usr/bin/blender, 256, GPU-1".
Definition join_pmon_dash : string :=
  "    0        100     C     -     -     -     -   512   python".
Definition proc_100 : proc := mk_proc 100 "python" 512 "GPU-1" None None.
Definition proc_200 : proc := mk_proc 200 "blender" 256 "GPU-1" None None.
Definition sample_100 : pmon_entry := mk_pmon 0 (Some 100) (Some 80) (Some 40) "python".
Definition sample_100_dash : pmon_entry := mk_pmon 0 (Some 100) None None "python".

(** The index column of the well-formed rows, in row order. *)
Definition row_indices {F} (py_float : string -> option F)
    (rows : list (list string)) : list Z :=
  omap (fun r => g_index <$> gpu_of_row py_float r) rows.

(** A device query answered with the second device first. *)
Definition dev_unordered : string :=
  nl "GPU-b, 1, Tesla T4, 41, 10, 100, 15360, N/A, N/A, N/A, N/A"
     "GPU-a, 0, Tesla T4, 40, 10, 100, 15360, N/A, N/A, N/A, N/A".
Definition gpu_b1 : gpu (Z * nat) :=
  mk_gpu "GPU-b" 1 "Tesla T4" 41 10 100 15360 None None None None.
Definition gpu_a0 : gpu (Z * nat) :=
  mk_gpu "GPU-a" 0 "Tesla T4" 40 10 100 15360 None None None None.
Definition gpu_1 : gpu (Z * nat) :=
  mk_gpu "GPU-1" 0 "Tesla T4" 40 10 100 15360 None None None None.

(** The same tool as [canned_tool], but exiting with status 1. *)
Definition failing_tool (d p m : string) (argv : list string) : outcome bytes :=
  match canned_tool d p m argv with
  | Return b => Raise (CalledProcessError 1 b)
  | Raise e => Raise e
  end.

(** The fields of the three device rows. *)
Definition dev_fields_a : list string :=
  ["GPU-a"; "0"; "Tesla T4"; "40"; "10"; "100"; "15360";
   "27.50"; "70.00"; "585"; "35"].
Definition dev_fields_b : list string :=
  ["GPU-b"; "1"; "Tesla T4"; "hot"; "10"; "100"; "15360";
   "N/A"; "N/A"; "N/A"; "N/A"].
Definition dev_fields_c : list string :=
  ["GPU-c"; "2"; "A100"; "50"; "90"; "2000"; "40960"; "N/A"; "N/A"; "1410"].

(** ** Vocabulary for the remaining properties *)

(** The text contains a slash. *)
Definition has_slash (s : string) : bool :=
  existsb (Ascii.eqb "/") (list_ascii_of_string s).

(** A well-formed process row and its record: an integer pid, the name
    reduced to its last path component (a dash for an empty name), the
    memory as an integer with [N/A] read as zero, the uuid, and the two
    utilization fields null. *)
Definition proc_row_converts (r : list string) (p : proc) : Prop :=
  field_is Py.int r 0 (p_pid p)
  /\ (exists s, r !! 1%nat = Some s
                /\ (s = EmptyString /\ p_name p = "-"
                    \/ s <> EmptyString /\ p_name p = Py.basename s))
  /\ (exists s, r !! 2%nat = Some s
                /\ (s = "N/A" /\ p_mem p = 0
                    \/ s <> "N/A" /\ Py.int s = Some (p_mem p)))
  /\ r !! 3%nat = Some (p_uuid p)
  /\ p_sm p = None /\ p_mem_util p = None.

(** A process row that cannot be read: a column is missing, or the pid or
    the memory fails to convert. *)
Definition proc_row_fails (r : list string) : Prop :=
  (length r < 4)%nat
  \/ r !! 0%nat ≫= Py.int = None
  \/ exists s, r !! 2%nat = Some s /\ s <> "N/A" /\ Py.int s = None.

(** A line of the monitoring sample and the sample it denotes. *)
Definition pmon_line_converts (ln : string) (e : pmon_entry) : Prop :=
  Py.startswith "#" (Py.strip ln) = false
  /\ (9 <= length (pmon_parts ln))%nat
  /\ field_is Py.int (pmon_parts ln) 0 (e_gpu e)
  /\ dash_or_int (pmon_parts ln) 1 (e_pid e)
  /\ dash_or_int (pmon_parts ln) 3 (e_sm e)
  /\ dash_or_int (pmon_parts ln) 4 (e_mem e)
  /\ pmon_parts ln !! 8%nat = Some (e_cmd e).

(** Two process rows: one with a path and [N/A] memory, one too short. *)
Definition proc_fields_na : list string := ["4242"; "/opt/bin/train"; "N/A"; "GPU-a"].
Definition proc_fields_short : list string := ["4243"; "python"; "12"].
Definition proc_sample : string :=
  nl "4242, /opt/bin/train, N/A, GPU-a" "4243, python, 12".

(** The argument vectors of the three calls of the tool. *)
Definition gpu_argv : list string :=
  ["nvidia-smi";
   "--query-gpu=uuid,index,name,temperature.gpu,utilization.gpu,memory.used,memory.total,power.draw,power.limit,clocks.sm,fan.speed";
   "--format=csv,noheader,nounits"].
Definition proc_argv : list string :=
  ["nvidia-smi"; "--query-compute-apps=pid,process_name,used_memory,gpu_uuid";
   "--format=csv,noheader,nounits"].
Definition pmon_argv : list string :=
  ["nvidia-smi"; "pmon"; "-c"; "1"; "-s"; "um"].

(** The exception is one of the two that [run_cmd] handles. *)
Definition handled (e : exn) : Prop :=
  e = FileNotFoundError \/ exists rc out, e = CalledProcessError rc out.

(** ** The process rows of the display

    What [draw] and [print_once] do with the group of a device before
    printing it. *)

(** The key of the optional second sort of [draw]:
    [(p['sm'] or 0, p['mem_util'] or 0)]. *)
Definition util_key (p : proc) : Z * Z :=
  (or_zero (p_sm p), or_zero (p_mem_util p)).

(** [sorted(l, key=key, reverse=True)] *)
Fixpoint insert_desc_by (key : proc -> Z * Z) (x : proc) (l : list proc)
  : list proc :=
  match l with
  | [] => [x]
  | y :: l' =>
      if pair_ltb (key x) (key y) then y :: insert_desc_by key x l'
      else x :: l
  end.

Definition sorted_desc_by (key : proc -> Z * Z) (l : list proc) : list proc :=
  foldr (insert_desc_by key) [] l.

(** [l[:n]]: the first [n] elements, or all but the last [-n] when [n] is
    negative. *)
Definition slice_to {A} (n : Z) (l : list A) : list A :=
  if decide (0 <= n) then take (Z.to_nat n) l
  else take (length l - Z.to_nat (- n)) l.

(** The processes that [draw] lists under the device [g]:
    [per_gpu.get(g['index'], [])], sorted again when [sort_by_util] is
    set, cut at [max_procs]. *)
Definition shown_procs {F} (per_gpu : gmap Z (list proc)) (g : gpu F)
    (max_procs : Z) (sort_by_util : bool) : list proc :=
  let procs := default [] (per_gpu !! g_index g) in
  let procs := if sort_by_util then sorted_desc_by util_key procs else procs in
  slice_to max_procs procs.

(** The processes that [print_once] lists under the device [g]: the whole
    group. *)
Definition printed_procs {F} (per_gpu : gmap Z (list proc)) (g : gpu F)
  : list proc :=
  default [] (per_gpu !! g_index g).

(** Every character of the text is a blank. *)
Definition all_space (s : string) : bool :=
  forallb Py.is_space (list_ascii_of_string s).

(** The order of the optional second sort of [draw]. *)
Definition before_util (a b : proc) : Prop :=
  lex_ge (default 0 (p_sm a), default 0 (p_mem_util a))
         (default 0 (p_sm b), default 0 (p_mem_util b)).

(** A group of three processes to display. *)
Definition proc_300 : proc := mk_proc 300 "blender" 128 "GPU-1" (Some 80) (Some 90).
Definition shown_group : gmap Z (list proc) :=
  {[0 := [mk_proc 100 "python" 512 "GPU-1" (Some 80) (Some 40); proc_300; proc_200]]}.
(** ** The built-ins on sample texts *)

Example strip_ex :
  Py.strip ("  a b" ++ String "009" (String "028" EmptyString))%string = "a b".
Proof. reflexivity. Qed.
Example split_on_ex : Py.split_on "," "a,,b," = ["a"; ""; "b"; ""].
Proof. reflexivity. Qed.
Example split_on_empty : Py.split_on "," "" = [""].
Proof. reflexivity. Qed.
Example split_ex : Py.split "  a  b " = ["a"; "b"] /\ Py.split "   " = [].
Proof. split; reflexivity. Qed.
Example splitlines_ex :
  Py.splitlines (String "a" (String "013" (String "010" (String "b"
     (String "010" (String "013" (String "c" (String "010" ""))))))))
  = ["a"; "b"; ""; "c"].
Proof. reflexivity. Qed.
Example splitlines_ex2 :
  Py.splitlines "" = [] /\ Py.splitlines (String "010" "") = [""]
  /\ Py.splitlines (String "a" (String "010" (String "010" ""))) = ["a"; ""].
Proof. repeat split; reflexivity. Qed.
Example basename_ex :
  map Py.basename ["/usr/bin/python"; "python"; "/usr/bin/"; ""; "a/b/c"; "//"]
  = ["python"; "python"; ""; ""; "c"; ""].
Proof. reflexivity. Qed.
Example int_ex :
  map Py.int [""; "+"; "-"; "+5"; "-5"; "--5"; "1_0"; "_1"; "1_"; "1__0";
              "007"; "-0"; " 5 "; "5 5"; "+ 5"; "0x10"; "5.0"; "+1_2_3"]
  = [None; None; None; Some 5; Some (-5); None; Some 10; None; None; None;
     Some 7; Some 0; Some 5; None; None; None; None; Some 123].
Proof. reflexivity. Qed.
Example shlex_ex1 :
  Shlex.split "nvidia-smi pmon -c 1 -s um"
  = Return ["nvidia-smi"; "pmon"; "-c"; "1"; "-s"; "um"].
Proof. reflexivity. Qed.
Example shlex_ex2 :
  Shlex.split ("a 'b c'  d\ e '' " ++ String "034" ("x\" ++ String "034" ("y\z" ++ String "034" " ")))%string
  = Return ["a"; "b c"; "d e"; EmptyString; ("x" ++ String "034" "y\z")%string].
Proof. reflexivity. Qed.
Example shlex_ex3 : Shlex.split "echo 'oops" = Raise (ValueError "No closing quotation").
Proof. reflexivity. Qed.

(** ** The readers, row by row *)

Section RowLemmas.
Context {A : Type} (conv : string -> option A).

Lemma bind_field r i v : r !! i ≫= conv = Some v <-> field_is conv r i v.
Proof.
  unfold field_is. destruct (r !! i) as [s|]; simpl; split.
  - eauto.
  - intros (s' & [= <-] & H). done.
  - done.
  - intros (s' & [=] & _).
Qed.

Lemma bind_optional r i v :
  r !! i ≫= unless_na conv = Some v <-> optional_is conv r i v.
Proof.
  unfold optional_is, unless_na. destruct (r !! i) as [s|]; simpl.
  - destruct (decide (s = "N/A")) as [->|Hne]; split.
    + intros [= <-]. eexists; split; [done|]. by left.
    + intros (s' & [= <-] & [[_ ->]|[Hc _]]); done.
    + destruct (conv s) as [x|] eqn:E; simpl; [|done].
      intros [= <-]. eexists; split; [done|]. right. eauto.
    + intros (s' & [= <-] & [[Hc _]|(_ & x & Hx & ->)]); [done|].
      by rewrite Hx.
  - split; [done|]. intros (s' & [=] & _).
Qed.
End RowLemmas.

(** The loop body of [get_gpu_stats] succeeds exactly on the well-formed
    rows, with the record that the columns denote. *)
Lemma gpu_of_row_converts {F} (py_float : string -> option F) r g :
  gpu_of_row py_float r = Some g <-> gpu_row_converts py_float r g.
Proof.
  unfold gpu_of_row, gpu_row_converts, gpu_fields_convert.
  rewrite <- !bind_field, <- !bind_optional.
  split.
  - intros H.
    destruct (r !! 0%nat) as [uuid|]; simpl in H; [|done].
    destruct (r !! 1%nat ≫= Py.int) as [index|]; simpl in H; [|done].
    destruct (r !! 2%nat) as [name|]; simpl in H; [|done].
    destruct (r !! 3%nat ≫= Py.int) as [temp|]; simpl in H; [|done].
    destruct (r !! 4%nat ≫= Py.int) as [util|]; simpl in H; [|done].
    destruct (r !! 5%nat ≫= Py.int) as [mu|]; simpl in H; [|done].
    destruct (r !! 6%nat ≫= Py.int) as [mt|]; simpl in H; [|done].
    destruct (r !! 7%nat ≫= unless_na py_float) as [pwr|]; simpl in H; [|done].
    destruct (r !! 8%nat ≫= unless_na py_float) as [pl|]; simpl in H; [|done].
    destruct (r !! 9%nat ≫= unless_na Py.int) as [smc|]; simpl in H; [|done].
    case_bool_decide as Hlen.
    + destruct (r !! 10%nat ≫= unless_na Py.int) as [fan|] eqn:E;
        simpl in H; [|done].
      injection H as <-. simpl. repeat split; try done. by right.
    + simpl in H. injection H as <-. simpl. repeat split; try done.
      left. split; [|done]. apply lookup_ge_None. lia.
  - intros ((H0 & H1 & H2 & H3 & H4 & H5 & H6 & H7 & H8 & H9) & H10).
    rewrite H0, H1, H2, H3, H4, H5, H6, H7, H8, H9. simpl.
    destruct H10 as [[Hn Hf]|Hf].
    + rewrite bool_decide_eq_false_2 by (apply lookup_ge_None in Hn; lia).
      simpl. destruct g; simpl in *; by subst.
    + rewrite bool_decide_eq_true_2.
      * rewrite Hf. simpl. by destruct g.
      * apply bind_optional in Hf. destruct Hf as (s & Hs & _).
        by apply lookup_lt_Some in Hs.
Qed.

Lemma gpu_of_row_required {F} (py_float : string -> option F) r :
  required_field_fails r -> gpu_of_row py_float r = None.
Proof.
  intros (i & Hi & Hfail). unfold gpu_of_row.
  destruct (r !! 0%nat) as [uuid|]; simpl; [|done].
  destruct (r !! 1%nat ≫= Py.int) as [index|] eqn:E1; simpl.
  2: done.
  destruct (r !! 2%nat) as [name|]; simpl; [|done].
  destruct (r !! 3%nat ≫= Py.int) as [temp|] eqn:E3; simpl; [|done].
  destruct (r !! 4%nat ≫= Py.int) as [util|] eqn:E4; simpl; [|done].
  destruct (r !! 5%nat ≫= Py.int) as [mu|] eqn:E5; simpl; [|done].
  destruct (r !! 6%nat ≫= Py.int) as [mt|] eqn:E6; simpl; [|done].
  exfalso. set_unfold in Hi.
  destruct Hi as [->|[->|[->|[->|[->|[]]]]]]; congruence.
Qed.

(** The rows before and after a row are read the same whatever that row is. *)
Lemma gpu_stats_of_rows_split {F} (py_float : string -> option F) rows1 r rows2 :
  gpu_stats_of_rows py_float (rows1 ++ r :: rows2)
  = gpu_stats_of_rows py_float rows1
    ++ option_list (gpu_of_row py_float r)
    ++ gpu_stats_of_rows py_float rows2.
Proof.
  unfold gpu_stats_of_rows. rewrite omap_app. f_equal. simpl.
  by destruct (gpu_of_row py_float r).
Qed.

(** C6. For every device-query output and every row of it: a well-formed
    row yields exactly one record, whose fields are the conversions of the
    row's columns, between the records of the rows before and after it; a
    row in which a required field fails to convert yields nothing and
    leaves the records of the other rows as they are; and a row that stops
    before the fan-speed column yields its record with fan speed null. *)
Theorem C6_read_devices {F} (py_float : string -> option F)
    (out : string) (rows1 rows2 : list (list string)) (r : list string) :
  parse_csv out = rows1 ++ r :: rows2 ->
  (forall g, gpu_row_converts py_float r g ->
     gpu_stats_of py_float out
     = gpu_stats_of_rows py_float rows1 ++ g :: gpu_stats_of_rows py_float rows2)
  /\ (required_field_fails r ->
      gpu_stats_of py_float out
      = gpu_stats_of_rows py_float rows1 ++ gpu_stats_of_rows py_float rows2)
  /\ (forall g, length r = 10%nat -> gpu_fields_convert py_float r g ->
      g_fan g = None ->
      gpu_stats_of py_float out
      = gpu_stats_of_rows py_float rows1 ++ g :: gpu_stats_of_rows py_float rows2).
Proof.
  intros Hrows. unfold gpu_stats_of. rewrite Hrows, gpu_stats_of_rows_split.
  split; [|split].
  - intros g Hg. apply gpu_of_row_converts in Hg. by rewrite Hg.
  - intros Hbad. by rewrite (gpu_of_row_required _ _ Hbad).
  - intros g Hlen Hfields Hfan.
    assert (gpu_of_row py_float r = Some g) as ->; [|done].
    apply gpu_of_row_converts. split; [done|]. left. split; [|done].
    apply lookup_ge_None. lia.
Qed.

Lemma C6_read_devices_witness :
  gpu_stats_of decimal_float dev_sample = [gpu_a; gpu_c]
  /\ gpu_row_converts decimal_float dev_fields_a gpu_a
  /\ required_field_fails dev_fields_b
  /\ gpu_fields_convert decimal_float dev_fields_c gpu_c.
Proof.
  assert (gpu_row_converts decimal_float dev_fields_a gpu_a) as Ha.
  { unfold gpu_row_converts, gpu_fields_convert, field_is, optional_is.
    repeat split; try (eexists; split; [reflexivity|]);
      try (vm_compute; reflexivity);
      try (right; split; [discriminate|]; eexists; split;
           vm_compute; reflexivity).
    right. eexists; split; [reflexivity|].
    right; split; [discriminate|]; eexists; split; vm_compute; reflexivity. }
  assert (required_field_fails dev_fields_b) as Hb.
  { exists 3%nat. split; [|vm_compute; reflexivity].
    apply list_elem_of_further, list_elem_of_here. }
  assert (gpu_fields_convert decimal_float dev_fields_c gpu_c) as Hc.
  { unfold gpu_fields_convert, field_is, optional_is.
    repeat split; try (eexists; split; [reflexivity|]);
      try (vm_compute; reflexivity);
      try (left; split; reflexivity).
    right; split; [discriminate|]; eexists; split; vm_compute; reflexivity. }
  assert (parse_csv dev_sample = [dev_fields_a] ++ dev_fields_b :: [dev_fields_c])
    as Hrows by (vm_compute; reflexivity).
  split; [|done].
  rewrite (proj1 (proj2 (C6_read_devices decimal_float dev_sample
                           [dev_fields_a] [dev_fields_c] dev_fields_b Hrows)) Hb).
  vm_compute. reflexivity.
Defined.

(** ** The monitoring sample, line by line *)

Lemma pmon_of_parts_bad parts i :
  i ∈ [0; 1; 3; 4]%nat -> bad_int_field parts i -> pmon_of_parts parts = None.
Proof.
  intros Hi (s & Hs & Hdash & Hint). unfold pmon_of_parts.
  set_unfold in Hi. destruct Hi as [->|[->|[->|[->|[]]]]].
  - by rewrite Hs; simpl; rewrite Hint.
  - destruct (parts !! 0%nat ≫= Py.int); simpl; [|done].
    rewrite Hs. simpl. rewrite decide_False by done. by rewrite Hint.
  - destruct (parts !! 0%nat ≫= Py.int); simpl; [|done].
    destruct (parts !! 1%nat) as [p1|]; simpl; [|done].
    destruct (if decide (p1 = "-") then _ else _); simpl; [|done].
    rewrite Hs. simpl. rewrite decide_False by done. by rewrite Hint.
  - destruct (parts !! 0%nat ≫= Py.int); simpl; [|done].
    destruct (parts !! 1%nat) as [p1|]; simpl; [|done].
    destruct (if decide (p1 = "-") then _ else _); simpl; [|done].
    destruct (parts !! 3%nat) as [p3|]; simpl; [|done].
    destruct (if decide (p3 = "-") then _ else _); simpl; [|done].
    rewrite Hs. simpl. rewrite decide_False by done. by rewrite Hint.
Qed.

Lemma pmon_of_line_bad ln i :
  i ∈ [0; 1; 3; 4]%nat -> bad_int_field (pmon_parts ln) i ->
  pmon_of_line ln = None.
Proof.
  intros Hi Hbad. unfold pmon_of_line.
  destruct (_ || _); [done|]. case_bool_decide; [done|].
  by apply (pmon_of_parts_bad _ i).
Qed.

Lemma pmon_of_lines_split l1 ln l2 :
  pmon_of_lines (l1 ++ ln :: l2)
  = pmon_of_lines l1 ++ option_list (pmon_of_line ln) ++ pmon_of_lines l2.
Proof.
  unfold pmon_of_lines. rewrite omap_app. f_equal. simpl.
  by destruct (pmon_of_line ln).
Qed.

(** C10. For every monitoring-sample input and every line of it with at
    least nine fields, if the device-index, pid, sm or mem field is
    neither the sentinel token nor a parseable integer, the line yields no
    sample and the samples of the other lines are what they would be
    without it. *)
Theorem C10_unreadable_row_dropped (out : string) (l1 l2 : list string)
    (ln : string) (i : nat) :
  Py.splitlines out = l1 ++ ln :: l2 ->
  (9 <= length (pmon_parts ln))%nat ->
  i ∈ [0; 1; 3; 4]%nat ->
  bad_int_field (pmon_parts ln) i ->
  pmon_of_line ln = None
  /\ pmon_of out = pmon_of_lines l1 ++ pmon_of_lines l2.
Proof.
  intros Hlines _ Hi Hbad.
  pose proof (pmon_of_line_bad ln i Hi Hbad) as Hnone.
  split; [done|].
  unfold pmon_of. by rewrite Hlines, pmon_of_lines_split, Hnone.
Qed.

Lemma C10_unreadable_row_dropped_witness :
  pmon_of_line pmon_garbled = None
  /\ pmon_of pmon_sample
     = pmon_of_lines [pmon_header; pmon_busy; pmon_idle] ++ pmon_of_lines [].
Proof.
  assert (Py.splitlines pmon_sample
          = [pmon_header; pmon_busy; pmon_idle] ++ pmon_garbled :: [])
    as Hlines by (vm_compute; reflexivity).
  assert (9 <= length (pmon_parts pmon_garbled))%nat as Hlen
    by (vm_compute; lia).
  assert (3%nat ∈ [0; 1; 3; 4]%nat) as Hi
    by (apply list_elem_of_further, list_elem_of_further, list_elem_of_here).
  assert (bad_int_field (pmon_parts pmon_garbled) 3) as Hbad.
  { exists "n/a". split; [vm_compute; reflexivity|].
    split; [discriminate|vm_compute; reflexivity]. }
  exact (C10_unreadable_row_dropped pmon_sample
           [pmon_header; pmon_busy; pmon_idle] [] pmon_garbled 3
           Hlines Hlen Hi Hbad).
Defined.

(** A line with nine fields that is no comment reaches the [try]. *)
Lemma pmon_of_line_parts ln :
  Py.startswith "#" (Py.strip ln) = false ->
  (9 <= length (pmon_parts ln))%nat ->
  pmon_of_line ln = pmon_of_parts (pmon_parts ln).
Proof.
  unfold pmon_of_line, pmon_parts. intros Hc Hlen. rewrite Hc.
  destruct (Py.strip ln) as [|c s] eqn:E.
  - exfalso. simpl in Hlen. lia.
  - simpl. rewrite bool_decide_eq_false_2 by lia. done.
Qed.







(** ** Dictionaries filled by a loop *)

(** After a loop of stores [d[key a] = val a], a key holds the value of
    the last element that has it. *)
Lemma foldl_insert_last {A K V} `{Countable K} (key : A -> K) (val : A -> V)
    (l : list A) (m : gmap K V) (k : K) :
  foldl (fun m a => <[key a := val a]> m) m l !! k
  = match last (filter (fun a => key a = k) l) with
    | Some a => Some (val a)
    | None => m !! k
    end.
Proof.
  revert m. induction l as [|a l IH]; intros m; [done|].
  simpl. rewrite IH, filter_cons. destruct (decide (key a = k)) as [<-|Hne].
  - rewrite last_cons. destruct (last _); [done|]. by rewrite lookup_insert_eq.
  - destruct (last _); [done|]. by rewrite lookup_insert_ne.
Qed.

Lemma pmon_index_lookup pmon k :
  pmon_index pmon !! k
  = last (filter (fun e => (Some (e_gpu e), e_pid e) = k /\ e_pid e <> None) pmon).
Proof.
  unfold pmon_index.
  rewrite (foldl_insert_last (fun e => (Some (e_gpu e), e_pid e)) id).
  rewrite list_filter_filter, lookup_empty. by destruct (last _).
Qed.

Lemma pmon_index_proc_key pmon uuid_to_index p :
  pmon_index pmon !! (uuid_to_index !! p_uuid p, Some (p_pid p))
  = last (filter (shares_key uuid_to_index p) pmon).
Proof.
  rewrite pmon_index_lookup. f_equal. apply list_filter_iff.
  intros e. unfold shares_key. split.
  - intros [[= Hg Hp] _]. done.
  - intros [Hg Hp]. rewrite Hg, Hp. done.
Qed.

Lemma uuid_index_map_lookup {F} (gpus : list (gpu F)) u :
  uuid_index_map gpus !! u
  = g_index <$> last (filter (fun g => g_uuid g = u) gpus).
Proof.
  unfold uuid_index_map. rewrite (foldl_insert_last g_uuid g_index).
  by destruct (last _).
Qed.

(** ** The join *)

Lemma enrich_lookup procs pmon uuid_to_index i p :
  procs !! i = Some p ->
  enrich_procs_with_pmon procs pmon uuid_to_index !! i
  = Some (match last (filter (shares_key uuid_to_index p) pmon) with
          | Some e => with_util p e
          | None => p
          end).
Proof.
  intros Hp. unfold enrich_procs_with_pmon.
  rewrite list_lookup_fmap, Hp. simpl. unfold enrich_proc.
  by rewrite pmon_index_proc_key.
Qed.

(** The process reader leaves the two utilization fields null. *)
Lemma proc_of_row_null r p :
  proc_of_row r = Some p -> p_sm p = None /\ p_mem_util p = None.
Proof.
  unfold proc_of_row. intros H.
  destruct (r !! 0%nat ≫= Py.int); simpl in H; [|done].
  destruct (r !! 1%nat); simpl in H; [|done].
  destruct (r !! 2%nat); simpl in H; [|done].
  destruct (if decide _ then _ else _); simpl in H; [|done].
  destruct (r !! 3%nat); simpl in H; [|done].
  by injection H as <-.
Qed.

Lemma compute_processes_of_null out p :
  p ∈ compute_processes_of out -> p_sm p = None /\ p_mem_util p = None.
Proof.
  unfold compute_processes_of. intros Hp.
  apply list_elem_of_omap in Hp as (r & _ & Hr).
  by apply proc_of_row_null in Hr.
Qed.

Lemma filter_all_false {A} (P : A -> Prop) `{!forall x, Decision (P x)} (l : list A) :
  (forall x, x ∈ l -> ~ P x) -> filter P l = [].
Proof.
  induction l as [|a l IH]; intros Hl; [done|].
  rewrite filter_cons_False by (apply Hl; left).
  apply IH. intros x Hx. apply Hl. by right.
Qed.

(** As stated, C1 fails: the process 100 and the sample read from the
    monitoring row share the key (0, 100), and the record of the process
    in the snapshot has both utilization fields null, because the sm and
    mem columns of the row are the sentinel. *)
Lemma C1_counterexample :
  compute_processes_of "100, /usr/bin/python, 512, GPU-1" = [proc_100]
  /\ pmon_of join_pmon_dash = [sample_100_dash]
  /\ shares_key (uuid_index_map (gpu_stats_of decimal_float join_dev))
       proc_100 sample_100_dash
  /\ (snapshot_of (gpu_stats_of decimal_float join_dev)
        (compute_processes_of "100, /usr/bin/python, 512, GPU-1")
        (pmon_of join_pmon_dash)).2 !! 0
     = Some [mk_proc 100 "python" 512 "GPU-1" None None].
Proof. repeat split; vm_compute; reflexivity. Qed.

(** C1, amended. A process record that shares its (device index, pid) key
    with utilization samples carries, after the join, the two values of
    the last such sample of the monitoring output: the sample's own values
    when all the samples of that key agree (in particular when there is
    one), and null wherever that sample is null. A process record that no
    sample matches has both fields null. The other fields are kept. *)
Theorem C1_join_last_sample (proc_out : string) (pmon : list pmon_entry)
    (uuid_to_index : gmap string Z) (i : nat) (p : proc) :
  compute_processes_of proc_out !! i = Some p ->
  exists q,
    enrich_procs_with_pmon (compute_processes_of proc_out) pmon uuid_to_index !! i
    = Some q
    /\ (p_pid q, p_name q, p_mem q, p_uuid q) = (p_pid p, p_name p, p_mem p, p_uuid p)
    /\ (forall e, e ∈ pmon -> shares_key uuid_to_index p e ->
        exists e', last (filter (shares_key uuid_to_index p) pmon) = Some e'
                   /\ p_sm q = e_sm e' /\ p_mem_util q = e_mem e')
    /\ (forall e, e ∈ pmon -> shares_key uuid_to_index p e ->
        (forall e', e' ∈ pmon -> shares_key uuid_to_index p e' ->
                    e_sm e' = e_sm e /\ e_mem e' = e_mem e) ->
        p_sm q = e_sm e /\ p_mem_util q = e_mem e)
    /\ ((forall e, e ∈ pmon -> ~ shares_key uuid_to_index p e) ->
        p_sm q = None /\ p_mem_util q = None).
Proof.
  intros Hp. eexists. split; [by apply enrich_lookup|].
  assert (forall e, e ∈ pmon -> shares_key uuid_to_index p e ->
          exists e', last (filter (shares_key uuid_to_index p) pmon) = Some e')
    as Hsome.
  { intros e He Hk.
    destruct (last (filter (shares_key uuid_to_index p) pmon)) as [e'|] eqn:E;
      [by eexists|].
    apply last_None in E.
    assert (e ∈ filter (shares_key uuid_to_index p) pmon) as Hin
      by (by apply list_elem_of_filter).
    rewrite E in Hin. by apply not_elem_of_nil in Hin. }
  split; [by destruct (last _)|]. split; [|split].
  - intros e He Hk. destruct (Hsome e He Hk) as (e' & He').
    exists e'. by rewrite He'.
  - intros e He Hk Hall. destruct (Hsome e He Hk) as (e' & He').
    rewrite He'. simpl. apply last_Some_elem_of in He'.
    apply list_elem_of_filter in He' as [Hk' Hin']. by apply Hall.
  - intros Hnone. rewrite filter_all_false by done. simpl.
    apply (compute_processes_of_null proc_out).
    by apply list_elem_of_lookup_2 in Hp.
Qed.

Lemma C1_join_last_sample_witness :
  exists q,
    enrich_procs_with_pmon (compute_processes_of join_procs)
      [sample_100_dash; sample_100] {["GPU-1" := 0]} !! 0%nat = Some q
    /\ p_sm q = Some 80 /\ p_mem_util q = Some 40.
Proof.
  assert (compute_processes_of join_procs !! 0%nat = Some proc_100) as Hp
    by (vm_compute; reflexivity).
  destruct (C1_join_last_sample join_procs [sample_100_dash; sample_100]
              {["GPU-1" := 0]} 0 proc_100 Hp)
    as (q & Hq & _ & Hlast & _).
  exists q. split; [exact Hq|].
  assert (shares_key {["GPU-1" := 0]} proc_100 sample_100) as Hk
    by (split; vm_compute; reflexivity).
  destruct (Hlast sample_100) as (e' & He' & Hsm & Hmem).
  - apply list_elem_of_further, list_elem_of_here.
  - exact Hk.
  - assert (last (filter (shares_key {["GPU-1" := 0]} proc_100)
                    [sample_100_dash; sample_100]) = Some sample_100) as Hl
      by (vm_compute; reflexivity).
    rewrite Hl in He'. injection He' as <-. split; assumption.
Defined.

(** C9. A process record whose device uuid is absent from the
    uuid-to-index mapping is left as it is by the join: its key has a null
    device index, no sample is stored under such a key, and so its two
    utilization fields, null before, are null after. *)
Theorem C9_unknown_uuid_stays_null {F} (gpus : list (gpu F))
    (procs : list proc) (pmon : list pmon_entry) (i : nat) (p : proc) :
  procs !! i = Some p ->
  uuid_index_map gpus !! p_uuid p = None ->
  p_sm p = None -> p_mem_util p = None ->
  (forall e, e ∈ pmon -> (Some (e_gpu e), e_pid e) <> (None, Some (p_pid p)))
  /\ pmon_index pmon !! (uuid_index_map gpus !! p_uuid p, Some (p_pid p)) = None
  /\ exists q, enrich_procs_with_pmon procs pmon (uuid_index_map gpus) !! i = Some q
               /\ q = p /\ p_sm q = None /\ p_mem_util q = None.
Proof.
  intros Hp Hu Hsm Hmem.
  assert (filter (shares_key (uuid_index_map gpus) p) pmon = []) as Hnil.
  { apply filter_all_false. intros e _ [Hk _]. by rewrite Hu in Hk. }
  split; [by intros e _|]. split.
  - by rewrite pmon_index_proc_key, Hnil.
  - exists p. rewrite (enrich_lookup _ _ _ _ _ Hp), Hnil. done.
Qed.

Lemma C9_unknown_uuid_stays_null_witness :
  exists q,
    enrich_procs_with_pmon [mk_proc 100 "python" 512 "GPU-gone" None None]
      [sample_100] (uuid_index_map (gpu_stats_of decimal_float join_dev)) !! 0%nat
    = Some q
    /\ p_sm q = None /\ p_mem_util q = None.
Proof.
  assert (uuid_index_map (gpu_stats_of decimal_float join_dev)
          !! p_uuid (mk_proc 100 "python" 512 "GPU-gone" None None) = None)
    as Hu by (vm_compute; reflexivity).
  destruct (C9_unknown_uuid_stays_null (gpu_stats_of decimal_float join_dev)
              [mk_proc 100 "python" 512 "GPU-gone" None None] [sample_100] 0
              (mk_proc 100 "python" 512 "GPU-gone" None None)
              eq_refl Hu eq_refl eq_refl)
    as (_ & _ & q & Hq & _ & Hsm & Hmem).
  exists q. split; [exact Hq|]. split; assumption.
Defined.

(** ** The sort *)

Lemma or_zero_default x : or_zero x = default 0 x.
Proof. destruct x as [v|]; simpl; [|done]. by case_decide. Qed.

Lemma sort_key_order_key x : sort_key x = order_key x.
Proof. unfold sort_key, order_key. by rewrite !or_zero_default. Qed.

Lemma pair_ltb_false a b : pair_ltb a b = false -> lex_ge a b.
Proof.
  unfold pair_ltb, lex_ge. destruct a as [a1 a2], b as [b1 b2]. simpl.
  intros H. apply orb_false_iff in H as [H1 H2].
  apply Z.ltb_ge in H1. apply andb_false_iff in H2 as [H2|H2].
  - apply Z.eqb_neq in H2. lia.
  - apply Z.ltb_ge in H2. lia.
Qed.

Lemma pair_ltb_true a b : pair_ltb a b = true -> lex_ge b a.
Proof.
  unfold pair_ltb, lex_ge. destruct a as [a1 a2], b as [b1 b2]. simpl.
  intros H. apply orb_true_iff in H as [H|H].
  - apply Z.ltb_lt in H. lia.
  - apply andb_true_iff in H as [H1 H2].
    apply Z.eqb_eq in H1. apply Z.ltb_lt in H2. lia.
Qed.

Lemma insert_desc_perm x l : insert_desc x l ≡ₚ x :: l.
Proof.
  induction l as [|y l IH]; simpl; [done|].
  destruct (pair_ltb _ _); [|done].
  rewrite IH. apply Permutation_swap.
Qed.

Lemma sort_desc_perm l : sort_desc l ≡ₚ l.
Proof.
  induction l as [|x l IH]; simpl; [done|].
  unfold sort_desc in *. simpl. by rewrite insert_desc_perm, IH.
Qed.

Lemma insert_desc_hd a x l :
  before a x -> HdRel before a l -> HdRel before a (insert_desc x l).
Proof.
  intros Hax Hal. destruct l as [|y l]; simpl.
  - by constructor.
  - destruct (pair_ltb _ _); constructor; [|done].
    by inversion Hal.
Qed.

Lemma insert_desc_sorted x l :
  Sorted before l -> Sorted before (insert_desc x l).
Proof.
  induction 1 as [|y l Hs IH Hhd]; simpl.
  - by repeat constructor.
  - destruct (pair_ltb (sort_key x) (sort_key y)) eqn:E.
    + constructor; [done|]. apply insert_desc_hd; [|done].
      unfold before. rewrite <- !sort_key_order_key. by apply pair_ltb_true.
    + constructor; [by constructor|]. constructor.
      unfold before. rewrite <- !sort_key_order_key. by apply pair_ltb_false.
Qed.

Lemma sort_desc_sorted l : Sorted before (sort_desc l).
Proof.
  induction l as [|x l IH]; [constructor|].
  unfold sort_desc in *. simpl. by apply insert_desc_sorted.
Qed.

(** ** The groups *)

Lemma empty_groups_lookup {F} (gpus : list (gpu F)) i :
  empty_groups gpus !! i
  = if decide (i ∈ g_index <$> gpus) then Some [] else None.
Proof.
  unfold empty_groups.
  rewrite (foldl_insert_last g_index (fun _ => @nil proc)), lookup_empty.
  destruct (last _) as [g|] eqn:E.
  - apply last_Some_elem_of, list_elem_of_filter in E as [<- Hin].
    rewrite decide_True; [done|]. by apply list_elem_of_fmap_2.
  - apply last_None in E. rewrite decide_False; [done|].
    intros (g & -> & Hg)%list_elem_of_fmap.
    assert (g ∈ filter (fun g' => g_index g' = g_index g) gpus) as Hin
      by (by apply list_elem_of_filter).
    rewrite E in Hin. by apply not_elem_of_nil in Hin.
Qed.

Lemma foldl_group_lookup uuid_to_index procs (m : gmap Z (list proc)) i :
  foldl (group_proc uuid_to_index) m procs !! i
  = (fun l => l ++ filter (fun p => uuid_to_index !! p_uuid p = Some i) procs)
    <$> m !! i.
Proof.
  revert m. induction procs as [|p procs IH]; intros m; simpl.
  - destruct (m !! i); simpl; [|done]. by rewrite app_nil_r.
  - rewrite IH. unfold group_proc.
    destruct (uuid_to_index !! p_uuid p) as [idx|] eqn:E.
    + destruct (decide (idx = i)) as [->|Hne].
      * rewrite filter_cons_True by exact E.
        destruct (decide (is_Some (m !! i))) as [Hs|Hn].
        -- rewrite lookup_alter_eq. destruct (m !! i); simpl; [|done].
           by rewrite <- app_assoc.
        -- apply eq_None_not_Some in Hn. by rewrite Hn.
      * rewrite filter_cons_False by (simpl; rewrite E; congruence).
        destruct (decide (is_Some (m !! idx))); [|done].
        by rewrite lookup_alter_ne.
    + rewrite filter_cons_False by (simpl; by rewrite E). done.
Qed.

(** The group of a device, before the sort: the processes, in the order
    of the process query, whose uuid resolves to the device's index. *)
Lemma per_gpu_unsorted_lookup {F} (gpus : list (gpu F)) procs pmon i :
  per_gpu_unsorted gpus procs pmon !! i
  = if decide (i ∈ g_index <$> gpus)
    then Some (filter (fun p => uuid_index_map gpus !! p_uuid p = Some i)
                 (enrich_procs_with_pmon procs pmon (uuid_index_map gpus)))
    else None.
Proof.
  unfold per_gpu_unsorted. rewrite foldl_group_lookup, empty_groups_lookup.
  by case_decide.
Qed.

Lemma snapshot_of_unsorted {F} (gpus : list (gpu F)) procs pmon :
  snapshot_of gpus procs pmon
  = (gpus, sort_desc <$> per_gpu_unsorted gpus procs pmon).
Proof. reflexivity. Qed.

Lemma snapshot_of_lookup {F} (gpus : list (gpu F)) procs pmon i :
  (snapshot_of gpus procs pmon).2 !! i
  = if decide (i ∈ g_index <$> gpus)
    then Some (sort_desc
                 (filter (fun p => uuid_index_map gpus !! p_uuid p = Some i)
                    (enrich_procs_with_pmon procs pmon (uuid_index_map gpus))))
    else None.
Proof.
  rewrite snapshot_of_unsorted. simpl.
  rewrite lookup_fmap, per_gpu_unsorted_lookup. by case_decide.
Qed.

(** ** The executor *)

Lemma pipeline_commands_split :
  Shlex.split gpu_cmd
  = Return ["nvidia-smi";
            "--query-gpu=uuid,index,name,temperature.gpu,utilization.gpu,memory.used,memory.total,power.draw,power.limit,clocks.sm,fan.speed";
            "--format=csv,noheader,nounits"]
  /\ Shlex.split proc_cmd
     = Return ["nvidia-smi";
               "--query-compute-apps=pid,process_name,used_memory,gpu_uuid";
               "--format=csv,noheader,nounits"]
  /\ Shlex.split pmon_cmd
     = Return ["nvidia-smi"; "pmon"; "-c"; "1"; "-s"; "um"].
Proof. repeat split; vm_compute; reflexivity. Qed.

(** [snapshot()] returns exactly when its three [run_cmd] calls return,
    with the snapshot of the three texts. *)
Lemma snapshot_Return {F} (py_float : string -> option F) decode check_output r :
  snapshot py_float decode check_output = Return r <->
  exists d p m,
    run_cmd decode check_output gpu_cmd = Return d
    /\ run_cmd decode check_output proc_cmd = Return p
    /\ run_cmd decode check_output pmon_cmd = Return m
    /\ r = snapshot_of (gpu_stats_of py_float d) (compute_processes_of p) (pmon_of m).
Proof.
  unfold snapshot, get_gpu_stats, get_compute_processes, get_pmon_once.
  destruct (run_cmd decode check_output gpu_cmd) as [d|e1]; simpl.
  2: { split; [done|]. by intros (? & ? & ? & ? & _). }
  destruct (run_cmd decode check_output proc_cmd) as [p|e2]; simpl.
  2: { split; [done|]. by intros (? & ? & ? & _ & ? & _). }
  destruct (run_cmd decode check_output pmon_cmd) as [m|e3]; simpl.
  2: { split; [done|]. by intros (? & ? & ? & _ & _ & ? & _). }
  split.
  - intros [= <-]. by exists d, p, m.
  - intros (d' & p' & m' & [= <-] & [= <-] & [= <-] & ->). done.
Qed.

(** As stated, C7 fails: a command line with an unclosed quote makes
    [shlex.split] raise [ValueError] inside the [try], which neither
    handler catches; and a launch refused by the system with
    [PermissionError] is not caught either. *)
Lemma C7_counterexample :
  run_cmd ascii_decode (canned_tool "" "" "") "nvidia-smi 'pmon"
  = Raise (ValueError "No closing quotation")
  /\ run_cmd ascii_decode (fun _ => Raise PermissionError) "nvidia-smi"
     = Raise PermissionError.
Proof. split; vm_compute; reflexivity. Qed.

(** [shlex.split] raises nothing but [ValueError]. *)
Lemma shlex_tokens_Raise st tok quoted s e :
  Shlex.tokens st tok quoted s = Raise e -> exists msg, e = ValueError msg.
Proof.
  revert st tok quoted. induction s as [|c s IH]; intros st tok quoted.
  - destruct st; simpl; intros [= <-]; by eexists.
  - simpl. destruct st as [| |q|esc].
    + destruct (Shlex.is_whitespace c).
      * destruct (negb (Py.is_empty tok) || quoted); [|by apply IH].
        destruct (Shlex.tokens Shlex.InSpace EmptyString false s) as [l|e'] eqn:E;
          simpl; [done|]. intros [= <-]. by apply IH in E.
      * destruct (Shlex.is_escape c); [by apply IH|].
        destruct (Shlex.is_quote c); by apply IH.
    + destruct (Shlex.is_whitespace c).
      * destruct (negb (Py.is_empty tok) || quoted); [|by apply IH].
        destruct (Shlex.tokens Shlex.InSpace EmptyString false s) as [l|e'] eqn:E;
          simpl; [done|]. intros [= <-]. by apply IH in E.
      * destruct (Shlex.is_quote c); [by apply IH|].
        destruct (Shlex.is_escape c); by apply IH.
    + destruct (Ascii.eqb c q); [by apply IH|].
      destruct (Shlex.is_escape c && Ascii.eqb q Shlex.dquote); by apply IH.
    + by apply IH.
Qed.

(** C7, amended. For a command line that splits into words, [run_cmd]
    returns the empty string when the binary does not exist, and the
    decoded merged output when the command exits non-zero, as when it
    exits zero; the only exceptions it lets through are those of the
    launch other than these two. A command line that does not split
    (unclosed quote, trailing escape character) makes [run_cmd] raise the
    [ValueError] of [shlex.split]; and every command line either splits
    or fails to split with a [ValueError]. *)
Theorem C7_run_cmd_returns (decode : bytes -> string)
    (check_output : list string -> outcome bytes) (cmd : string) :
  (forall argv, Shlex.split cmd = Return argv ->
     (check_output argv = Raise FileNotFoundError ->
      run_cmd decode check_output cmd = Return EmptyString)
     /\ (forall rc out, check_output argv = Raise (CalledProcessError rc out) ->
         run_cmd decode check_output cmd = Return (decode out))
     /\ (forall out, check_output argv = Return out ->
         run_cmd decode check_output cmd = Return (decode out))
     /\ (forall e, run_cmd decode check_output cmd = Raise e ->
         check_output argv = Raise e /\ e <> FileNotFoundError
         /\ forall rc out, e <> CalledProcessError rc out))
  /\ (forall e, Shlex.split cmd = Raise e ->
      (exists msg, e = ValueError msg)
      /\ run_cmd decode check_output cmd = Raise e)
  /\ ((exists argv, Shlex.split cmd = Return argv)
      \/ (exists msg, Shlex.split cmd = Raise (ValueError msg))).
Proof.
  split; [|split].
  - intros argv Hsplit. unfold run_cmd. rewrite Hsplit. simpl.
    split; [by intros ->|]. split; [by intros rc out ->|].
    split; [by intros out ->|].
    intros e. destruct (check_output argv) as [out|[]]; intros [= <-]; done.
  - intros e Hsplit.
    destruct (shlex_tokens_Raise _ _ _ _ _ Hsplit) as [msg ->].
    split; [by eexists|]. unfold run_cmd. by rewrite Hsplit.
  - destruct (Shlex.split cmd) as [argv|e] eqn:E; [left; by eexists|].
    right. destruct (shlex_tokens_Raise _ _ _ _ _ E) as [msg ->]. by eexists.
Qed.

Lemma C7_run_cmd_returns_witness :
  run_cmd ascii_decode (fun _ => Raise FileNotFoundError) pmon_cmd
  = Return EmptyString
  /\ run_cmd ascii_decode (failing_tool "" "" "no devices") pmon_cmd
     = Return (ascii_decode (list_byte_of_string "no devices"))
  /\ run_cmd ascii_decode (canned_tool "" "" "") "nvidia-smi pmon \"
     = Raise (ValueError "No escaped character").
Proof.
  assert (Shlex.split pmon_cmd
          = Return ["nvidia-smi"; "pmon"; "-c"; "1"; "-s"; "um"]) as Hsplit
    by (vm_compute; reflexivity).
  split; [|split].
  - exact (proj1 (proj1 (C7_run_cmd_returns ascii_decode
                           (fun _ => Raise FileNotFoundError) pmon_cmd)
                    _ Hsplit)
             eq_refl).
  - assert (failing_tool "" "" "no devices"
              ["nvidia-smi"; "pmon"; "-c"; "1"; "-s"; "um"]
            = Raise (CalledProcessError 1 (list_byte_of_string "no devices")))
      as Hfail by (vm_compute; reflexivity).
    exact (proj1 (proj2 (proj1 (C7_run_cmd_returns ascii_decode
                                  (failing_tool "" "" "no devices") pmon_cmd)
                           _ Hsplit))
             1 (list_byte_of_string "no devices") Hfail).
  - assert (Shlex.split "nvidia-smi pmon \"
            = Raise (ValueError "No escaped character")) as Hbad
      by (vm_compute; reflexivity).
    exact (proj2 (proj1 (proj2 (C7_run_cmd_returns ascii_decode
                                  (canned_tool "" "" "") "nvidia-smi pmon \"))
                    _ Hbad)).
Defined.

(** C8. Two calls of [snapshot] that get the same three texts from the
    tool return the same snapshot, the one that the reconciler computes
    from these texts: same device sequence, same groups in the same
    order, same joined values. *)
Theorem C8_snapshot_deterministic {F} (py_float : string -> option F)
    (decode1 decode2 : bytes -> string)
    (env1 env2 : list string -> outcome bytes) (d p m : string) :
  run_cmd decode1 env1 gpu_cmd = Return d ->
  run_cmd decode1 env1 proc_cmd = Return p ->
  run_cmd decode1 env1 pmon_cmd = Return m ->
  run_cmd decode2 env2 gpu_cmd = Return d ->
  run_cmd decode2 env2 proc_cmd = Return p ->
  run_cmd decode2 env2 pmon_cmd = Return m ->
  snapshot py_float decode1 env1 = snapshot py_float decode2 env2
  /\ snapshot py_float decode1 env1
     = Return (snapshot_of (gpu_stats_of py_float d)
                 (compute_processes_of p) (pmon_of m)).
Proof.
  intros H1 H2 H3 H4 H5 H6.
  assert (forall dec env,
            run_cmd dec env gpu_cmd = Return d ->
            run_cmd dec env proc_cmd = Return p ->
            run_cmd dec env pmon_cmd = Return m ->
            snapshot py_float dec env
            = Return (snapshot_of (gpu_stats_of py_float d)
                        (compute_processes_of p) (pmon_of m))) as Hrun.
  { intros dec env Hd Hp Hm. apply snapshot_Return. by exists d, p, m. }
  rewrite (Hrun decode1 env1), (Hrun decode2 env2) by done. done.
Qed.

Lemma C8_snapshot_deterministic_witness :
  snapshot decimal_float ascii_decode (canned_tool join_dev join_procs pmon_busy)
  = snapshot decimal_float ascii_decode (failing_tool join_dev join_procs pmon_busy).
Proof.
  assert (run_cmd ascii_decode (canned_tool join_dev join_procs pmon_busy) gpu_cmd
          = Return join_dev) as H1 by (vm_compute; reflexivity).
  assert (run_cmd ascii_decode (canned_tool join_dev join_procs pmon_busy) proc_cmd
          = Return join_procs) as H2 by (vm_compute; reflexivity).
  assert (run_cmd ascii_decode (canned_tool join_dev join_procs pmon_busy) pmon_cmd
          = Return pmon_busy) as H3 by (vm_compute; reflexivity).
  assert (run_cmd ascii_decode (failing_tool join_dev join_procs pmon_busy) gpu_cmd
          = Return join_dev) as H4 by (vm_compute; reflexivity).
  assert (run_cmd ascii_decode (failing_tool join_dev join_procs pmon_busy) proc_cmd
          = Return join_procs) as H5 by (vm_compute; reflexivity).
  assert (run_cmd ascii_decode (failing_tool join_dev join_procs pmon_busy) pmon_cmd
          = Return pmon_busy) as H6 by (vm_compute; reflexivity).
  exact (proj1 (C8_snapshot_deterministic decimal_float ascii_decode ascii_decode
                  (canned_tool join_dev join_procs pmon_busy)
                  (failing_tool join_dev join_procs pmon_busy)
                  join_dev join_procs pmon_busy H1 H2 H3 H4 H5 H6)).
Defined.

(** ** The snapshot *)

Lemma Sorted_adjacent {A} (R : A -> A -> Prop) (l : list A) k a b :
  Sorted R l -> l !! k = Some a -> l !! S k = Some b -> R a b.
Proof.
  intros Hs. revert k. induction Hs as [|x l Hs IH Hhd]; intros k Ha Hb.
  - done.
  - destruct k as [|k]; simpl in *.
    + injection Ha as ->. destruct Hhd as [|y l' Hxy]; simpl in Hb; [done|].
      by injection Hb as ->.
    + by apply (IH k).
Qed.

(** C2. For every snapshot that [snapshot()] returns: the keys of the
    groups are the device indices of the device sequence, each once; a
    process sits in the group of the index that its uuid resolves to, so
    in no group of an index absent from the devices; and the group of a
    device to which no process resolves is the empty sequence. *)
Theorem C2_groups_match_devices {F} (py_float : string -> option F)
    (decode : bytes -> string) (check_output : list string -> outcome bytes)
    (devices : list (gpu F)) (per_gpu : gmap Z (list proc)) :
  snapshot py_float decode check_output = Return (devices, per_gpu) ->
  (forall i, is_Some (per_gpu !! i) <-> i ∈ g_index <$> devices)
  /\ NoDup (map_to_list per_gpu).*1
  /\ (forall i l p, per_gpu !! i = Some l -> p ∈ l ->
      i ∈ g_index <$> devices
      /\ uuid_index_map devices !! p_uuid p = Some i)
  /\ exists p_out m_out,
       run_cmd decode check_output proc_cmd = Return p_out
       /\ run_cmd decode check_output pmon_cmd = Return m_out
       /\ forall g, g ∈ devices ->
            (forall p, p ∈ enrich_procs_with_pmon (compute_processes_of p_out)
                             (pmon_of m_out) (uuid_index_map devices) ->
                       uuid_index_map devices !! p_uuid p <> Some (g_index g)) ->
            per_gpu !! g_index g = Some [].
Proof.
  intros (d & p & m & Hd & Hp & Hm & Hr)%snapshot_Return.
  rewrite snapshot_of_unsorted in Hr. injection Hr as -> ->.
  set (gpus := gpu_stats_of py_float d).
  assert (forall i, (sort_desc <$> per_gpu_unsorted gpus (compute_processes_of p)
                       (pmon_of m)) !! i
                    = (snapshot_of gpus (compute_processes_of p) (pmon_of m)).2 !! i)
    as Hlk by done.
  split; [|split; [|split]].
  - intros i. rewrite Hlk, snapshot_of_lookup.
    case_decide; split; try done; by intros [? ?].
  - apply NoDup_fst_map_to_list.
  - intros i l q Hl Hq. rewrite Hlk, snapshot_of_lookup in Hl.
    case_decide as Hi; [|done]. split; [done|].
    injection Hl as <-. rewrite sort_desc_perm in Hq.
    by apply list_elem_of_filter in Hq as [Hq _].
  - exists p, m. split; [done|]. split; [done|].
    intros g Hg Hnone. rewrite Hlk, snapshot_of_lookup.
    rewrite decide_True by (by apply list_elem_of_fmap_2).
    rewrite filter_all_false; [done|]. intros q Hq. by apply Hnone.
Qed.

Lemma C2_groups_match_devices_witness :
  snapshot decimal_float ascii_decode
    (canned_tool dev_unordered "100, python, 512, GPU-a" pmon_busy)
  = Return ([gpu_b1; gpu_a0],
            {[0 := [mk_proc 100 "python" 512 "GPU-a" (Some 80) (Some 40)];
              1 := []]})
  /\ (is_Some (({[0 := [mk_proc 100 "python" 512 "GPU-a" (Some 80) (Some 40)];
                  1 := []]} : gmap Z (list proc)) !! 1)
      <-> 1 ∈ g_index <$> [gpu_b1; gpu_a0]).
Proof.
  assert (snapshot decimal_float ascii_decode
            (canned_tool dev_unordered "100, python, 512, GPU-a" pmon_busy)
          = Return ([gpu_b1; gpu_a0],
                    {[0 := [mk_proc 100 "python" 512 "GPU-a" (Some 80) (Some 40)];
                      1 := []]})) as Hrun by (vm_compute; reflexivity).
  split; [exact Hrun|].
  exact (proj1 (C2_groups_match_devices decimal_float ascii_decode
                  (canned_tool dev_unordered "100, python, 512, GPU-a" pmon_busy)
                  _ _ Hrun) 1).
Defined.

(** As stated, C3 fails: when the device query lists the device of index
    1 before the device of index 0, so does the snapshot. *)
Lemma C3_counterexample :
  snapshot decimal_float ascii_decode (canned_tool dev_unordered "" "")
  = Return ([gpu_b1; gpu_a0], {[0 := []; 1 := []]})
  /\ g_index gpu_b1 = 1 /\ g_index gpu_a0 = 0.
Proof. repeat split; vm_compute; reflexivity. Qed.

(** C3, amended. The device sequence of a snapshot is the output of the
    device reader as it is: one record per well-formed row, in the row
    order of the device query output. It is ordered by index ascending
    when the index column of the well-formed rows is. *)
Theorem C3_devices_in_row_order {F} (py_float : string -> option F)
    (decode : bytes -> string) (check_output : list string -> outcome bytes)
    (devices : list (gpu F)) (per_gpu : gmap Z (list proc)) :
  snapshot py_float decode check_output = Return (devices, per_gpu) ->
  exists dev_out,
    run_cmd decode check_output gpu_cmd = Return dev_out
    /\ devices = omap (gpu_of_row py_float) (parse_csv dev_out)
    /\ g_index <$> devices = row_indices py_float (parse_csv dev_out)
    /\ (Sorted Z.lt (row_indices py_float (parse_csv dev_out)) ->
        forall k a b, devices !! k = Some a -> devices !! S k = Some b ->
                      g_index a < g_index b).
Proof.
  intros (d & p & m & Hd & Hp & Hm & Hr)%snapshot_Return.
  injection Hr as -> _. exists d. split; [done|]. split; [done|].
  assert (g_index <$> gpu_stats_of py_float d
          = row_indices py_float (parse_csv d)) as Hidx.
  { unfold gpu_stats_of, gpu_stats_of_rows, row_indices.
    induction (parse_csv d) as [|r rows IH]; [done|].
    simpl. destruct (gpu_of_row py_float r); simpl; by f_equal. }
  split; [done|].
  intros Hs k a b Ha Hb. rewrite <- Hidx in Hs.
  apply (Sorted_adjacent Z.lt (g_index <$> gpu_stats_of py_float d) k).
  - done.
  - by rewrite list_lookup_fmap, Ha.
  - by rewrite list_lookup_fmap, Hb.
Qed.

Lemma C3_devices_in_row_order_witness :
  snapshot decimal_float ascii_decode (canned_tool dev_sample "" "")
  = Return ([gpu_a; gpu_c], {[0 := []; 2 := []]})
  /\ g_index gpu_a < g_index gpu_c.
Proof.
  assert (snapshot decimal_float ascii_decode (canned_tool dev_sample "" "")
          = Return ([gpu_a; gpu_c], {[0 := []; 2 := []]})) as Hrun
    by (vm_compute; reflexivity).
  split; [exact Hrun|].
  destruct (C3_devices_in_row_order decimal_float ascii_decode
              (canned_tool dev_sample "" "") _ _ Hrun)
    as (dev_out & Hout & _ & _ & Hasc).
  assert (run_cmd ascii_decode (canned_tool dev_sample "" "") gpu_cmd
          = Return dev_sample) as Hd by (vm_compute; reflexivity).
  rewrite Hd in Hout. injection Hout as <-.
  apply (Hasc ltac:(assert (row_indices decimal_float (parse_csv dev_sample)
                            = [0; 2]) as -> by (vm_compute; reflexivity);
                    repeat constructor) 0%nat gpu_a gpu_c eq_refl eq_refl).
Defined.

(** C4. In every group of a snapshot, each process is followed by one
    whose pair (utilization with null read as zero, memory in MiB) is not
    larger, lexicographically; and the group holds the very records that
    the grouping put there, so that a utilization that was null before
    the sort is null after it. *)
Theorem C4_groups_sorted {F} (py_float : string -> option F)
    (decode : bytes -> string) (check_output : list string -> outcome bytes)
    (devices : list (gpu F)) (per_gpu : gmap Z (list proc))
    (i : Z) (l : list proc) :
  snapshot py_float decode check_output = Return (devices, per_gpu) ->
  per_gpu !! i = Some l ->
  (forall k a b, l !! k = Some a -> l !! S k = Some b ->
     lex_ge (default 0 (p_sm a), p_mem a) (default 0 (p_sm b), p_mem b))
  /\ exists p_out m_out l0,
       run_cmd decode check_output proc_cmd = Return p_out
       /\ run_cmd decode check_output pmon_cmd = Return m_out
       /\ per_gpu_unsorted devices (compute_processes_of p_out) (pmon_of m_out) !! i
          = Some l0
       /\ l ≡ₚ l0
       /\ forall a, a ∈ l0 -> p_sm a = None -> a ∈ l /\ p_sm a = None.
Proof.
  intros (d & p & m & Hd & Hp & Hm & Hr)%snapshot_Return Hl.
  rewrite snapshot_of_unsorted in Hr. injection Hr as -> ->.
  rewrite lookup_fmap in Hl.
  destruct (per_gpu_unsorted _ _ _ !! i) as [l0|] eqn:E; [|done].
  injection Hl as <-. split.
  - intros k a b Ha Hb.
    apply (Sorted_adjacent before (sort_desc l0) k a b); try done.
    apply sort_desc_sorted.
  - exists p, m, l0. split; [done|]. split; [done|]. split; [done|].
    split; [apply sort_desc_perm|].
    intros a Ha Hsm. split; [|done]. by rewrite sort_desc_perm.
Qed.

Lemma C4_groups_sorted_witness :
  snapshot decimal_float ascii_decode (canned_tool join_dev join_procs pmon_busy)
  = Return ([gpu_1],
            {[0 := [mk_proc 100 "python" 512 "GPU-1" (Some 80) (Some 40);
                    proc_200]]})
  /\ lex_ge (default 0 (Some 80), 512) (default 0 None, 256).
Proof.
  assert (snapshot decimal_float ascii_decode
            (canned_tool join_dev join_procs pmon_busy)
          = Return ([gpu_1],
                    {[0 := [mk_proc 100 "python" 512 "GPU-1" (Some 80) (Some 40);
                            proc_200]]})) as Hrun by (vm_compute; reflexivity).
  split; [exact Hrun|].
  exact (proj1 (C4_groups_sorted decimal_float ascii_decode
                  (canned_tool join_dev join_procs pmon_busy) _ _ 0 _
                  Hrun eq_refl) 0%nat
           (mk_proc 100 "python" 512 "GPU-1" (Some 80) (Some 40)) proc_200
           eq_refl eq_refl).
Defined.

(** The scenarios of the specification: no output at all, and one device
    with two processes and one sample. *)
Example scenario_empty :
  snapshot decimal_float ascii_decode (canned_tool "" "" "")
  = Return ([], ∅).
Proof. vm_compute. reflexivity. Qed.

Example scenario_one_device :
  snapshot decimal_float ascii_decode (canned_tool join_dev join_procs pmon_busy)
  = Return ([gpu_1],
            {[0 := [mk_proc 100 "python" 512 "GPU-1" (Some 80) (Some 40);
                    proc_200]]}).
Proof. vm_compute. reflexivity. Qed.

(** ** More on the readers *)

Lemma lstrip_by_idem p s :
  Py.lstrip_by p (Py.lstrip_by p s) = Py.lstrip_by p s.
Proof.
  induction s as [|c s IH]; simpl; [done|].
  destruct (p c) eqn:E; [done|]. simpl. by rewrite E.
Qed.

Lemma rstrip_by_idem p s :
  Py.rstrip_by p (Py.rstrip_by p s) = Py.rstrip_by p s.
Proof.
  induction s as [|c s IH]; simpl; [done|].
  destruct (p c && Py.is_empty (Py.rstrip_by p s)) eqn:E; [done|].
  simpl. by rewrite IH, E.
Qed.

Lemma rstrip_by_lstrip_by p u :
  Py.rstrip_by p u = u ->
  Py.rstrip_by p (Py.lstrip_by p u) = Py.lstrip_by p u.
Proof.
  induction u as [|c u IH]; simpl; [done|].
  destruct (p c) eqn:E; simpl.
  - destruct (Py.is_empty (Py.rstrip_by p u)); [done|].
    intros [= H]. by apply IH.
  - by rewrite E.
Qed.

Lemma strip_idem s : Py.strip (Py.strip s) = Py.strip s.
Proof.
  unfold Py.strip.
  rewrite (rstrip_by_lstrip_by _ _ (rstrip_by_idem _ s)).
  apply lstrip_by_idem.
Qed.

Lemma split_on_not_nil sep s : Py.split_on sep s <> [].
Proof.
  destruct s as [|c s]; simpl; [done|].
  destruct (Ascii.eqb c sep); [done|].
  by destruct (Py.split_on sep s).
Qed.

(** X1. Every row of [parse_csv] has at least one field, and every field
    is free of surrounding blanks: stripping it again changes nothing. *)
Theorem X1_parse_csv_fields_stripped (lines : string) (r : list string) :
  r ∈ parse_csv lines ->
  r <> [] /\ forall f, f ∈ r -> Py.strip f = f.
Proof.
  unfold parse_csv. intros (ln & _ & Hr)%list_elem_of_omap.
  destruct (Py.is_empty (Py.strip ln)); [done|].
  injection Hr as <-. split.
  - intros Hnil%fmap_nil_inv. by apply split_on_not_nil in Hnil.
  - intros f (g & -> & _)%list_elem_of_fmap. apply strip_idem.
Qed.

Lemma X1_parse_csv_fields_stripped_witness :
  dev_fields_c <> [] /\ Py.strip "A100" = "A100".
Proof.
  assert (dev_fields_c ∈ parse_csv dev_sample) as Hr.
  { assert (parse_csv dev_sample = [dev_fields_a; dev_fields_b; dev_fields_c])
      as -> by (vm_compute; reflexivity).
    apply list_elem_of_further, list_elem_of_further, list_elem_of_here. }
  destruct (X1_parse_csv_fields_stripped dev_sample dev_fields_c Hr) as [Hne Hf].
  split; [exact Hne|]. apply Hf.
  apply list_elem_of_further, list_elem_of_further, list_elem_of_here.
Defined.

Lemma is_empty_true s : Py.is_empty s = true <-> s = EmptyString.
Proof. by destruct s. Qed.

Lemma proc_of_row_converts r p :
  proc_of_row r = Some p <-> proc_row_converts r p.
Proof.
  unfold proc_of_row, proc_row_converts. rewrite <- bind_field. split.
  - intros H.
    destruct (r !! 0%nat ≫= Py.int) as [pid|]; simpl in H; [|done].
    destruct (r !! 1%nat) as [r1|]; simpl in H; [|done].
    destruct (r !! 2%nat) as [r2|]; simpl in H; [|done].
    destruct (decide (r2 = "N/A")) as [->|Hna]; simpl in H.
    + destruct (r !! 3%nat) as [u|]; simpl in H; [|done].
      injection H as <-. simpl. repeat split; try done.
      * exists r1. split; [done|]. destruct r1; [by left|by right].
      * exists "N/A". split; [done|]. by left.
    + destruct (Py.int r2) as [mem|] eqn:Em; simpl in H; [|done].
      destruct (r !! 3%nat) as [u|]; simpl in H; [|done].
      injection H as <-. simpl. repeat split; try done.
      * exists r1. split; [done|]. destruct r1; [by left|by right].
      * exists r2. split; [done|]. by right.
  - intros (H0 & (s1 & H1 & Hn) & (s2 & H2 & Hm) & H3 & Hsm & Hmu).
    rewrite H0, H1, H2, H3. simpl.
    assert ((if decide (s2 = "N/A") then Some 0 else Py.int s2) = Some (p_mem p))
      as ->.
    { destruct Hm as [[-> ->]|[Hna ->]]; [done|]. by rewrite decide_False. }
    simpl. destruct p as [pid name mem uuid sm mu]. simpl in *. subst sm mu.
    f_equal. f_equal.
    destruct Hn as [[-> ->]|[Hne ->]]; [done|]. by destruct s1.
Qed.

Lemma proc_of_row_fails r : proc_row_fails r -> proc_of_row r = None.
Proof.
  unfold proc_of_row. intros [Hlen|[H0|(s & H2 & Hna & Hint)]].
  - destruct (r !! 0%nat ≫= Py.int); simpl; [|done].
    destruct (r !! 1%nat); simpl; [|done].
    destruct (r !! 2%nat); simpl; [|done].
    destruct (if decide _ then _ else _); simpl; [|done].
    rewrite (lookup_ge_None_2 r 3) by lia. done.
  - by rewrite H0.
  - destruct (r !! 0%nat ≫= Py.int); simpl; [|done].
    destruct (r !! 1%nat); simpl; [|done].
    rewrite H2. simpl. rewrite decide_False by done. by rewrite Hint.
Qed.

(** X2. For every process-query output and every row of it: a well-formed
    row yields exactly its record (name reduced to the last path
    component, [N/A] memory read as zero, utilization fields null)
    between the records of the rows before and after it; a row with a
    missing column or an unreadable pid or memory yields nothing and
    leaves the other records as they are. *)
Theorem X2_read_processes (out : string) (rows1 rows2 : list (list string))
    (r : list string) :
  parse_csv out = rows1 ++ r :: rows2 ->
  (forall p, proc_row_converts r p ->
     compute_processes_of out
     = omap proc_of_row rows1 ++ p :: omap proc_of_row rows2)
  /\ (proc_row_fails r ->
      compute_processes_of out
      = omap proc_of_row rows1 ++ omap proc_of_row rows2).
Proof.
  intros Hrows. unfold compute_processes_of. rewrite Hrows, omap_app. simpl.
  split.
  - intros p Hp%proc_of_row_converts. by rewrite Hp.
  - intros Hf%proc_of_row_fails. by rewrite Hf.
Qed.

Lemma X2_read_processes_witness :
  compute_processes_of proc_sample
  = omap proc_of_row []
    ++ mk_proc 4242 "train" 0 "GPU-a" None None :: omap proc_of_row [proc_fields_short]
  /\ compute_processes_of proc_sample
     = omap proc_of_row [proc_fields_na] ++ omap proc_of_row [].
Proof.
  assert (parse_csv proc_sample = [] ++ proc_fields_na :: [proc_fields_short])
    as H1 by (vm_compute; reflexivity).
  assert (parse_csv proc_sample = [proc_fields_na] ++ proc_fields_short :: [])
    as H2 by (vm_compute; reflexivity).
  split.
  - apply (proj1 (X2_read_processes proc_sample [] [proc_fields_short]
                    proc_fields_na H1)).
    unfold proc_row_converts, field_is. repeat split.
    + exists "4242". split; vm_compute; reflexivity.
    + exists "/opt/bin/train". split; [reflexivity|]. right.
      split; [discriminate|vm_compute; reflexivity].
    + exists "N/A". split; [reflexivity|]. left. split; reflexivity.
  - apply (proj2 (X2_read_processes proc_sample [proc_fields_na] []
                    proc_fields_short H2)).
    left. vm_compute. lia.
Defined.

Lemma basename_no_slash s : has_slash (Py.basename s) = false.
Proof.
  unfold has_slash. induction s as [|c s IH]; [done|].
  cbn [Py.basename].
  destruct (existsb (Ascii.eqb "/") (list_ascii_of_string s)) eqn:Es; [done|].
  destruct (Ascii.eqb c "/") eqn:Ec; [done|].
  cbn [list_ascii_of_string existsb]. by rewrite Es, Ascii.eqb_sym, Ec.
Qed.

(** X3. The name of a process record never contains a slash: it is the
    last path component of the reported name, or a dash. *)
Theorem X3_process_name_no_slash (out : string) (p : proc) :
  p ∈ compute_processes_of out -> has_slash (p_name p) = false.
Proof.
  unfold compute_processes_of.
  intros (r & _ & Hr)%list_elem_of_omap.
  apply proc_of_row_converts in Hr as (_ & (s & _ & Hn) & _).
  destruct Hn as [[_ ->]|[_ ->]]; [done|]. apply basename_no_slash.
Qed.

Lemma X3_process_name_no_slash_witness : has_slash "train" = false.
Proof.
  assert (mk_proc 4242 "train" 0 "GPU-a" None None
          ∈ compute_processes_of proc_sample) as Hin.
  { assert (compute_processes_of proc_sample
            = [mk_proc 4242 "train" 0 "GPU-a" None None]) as ->
      by (vm_compute; reflexivity).
    apply list_elem_of_here. }
  exact (X3_process_name_no_slash proc_sample _ Hin).
Defined.

Lemma dash_or_int_iff parts i v :
  (parts !! i ≫= fun s =>
     if decide (s = "-") then Some None else Some <$> Py.int s) = Some v
  <-> dash_or_int parts i v.
Proof.
  unfold dash_or_int. destruct (parts !! i) as [s|]; simpl.
  - destruct (decide (s = "-")) as [->|Hne]; split.
    + intros [= <-]. eexists; split; [done|]. by left.
    + intros (s' & [= <-] & [[_ ->]|[Hc _]]); done.
    + destruct (Py.int s) as [x|] eqn:E; simpl; [|done].
      intros [= <-]. eexists; split; [done|]. right. eauto.
    + intros (s' & [= <-] & [[Hc _]|(_ & x & Hx & ->)]); [done|].
      by rewrite Hx.
  - split; [done|]. intros (s' & [=] & _).
Qed.

Lemma pmon_of_parts_converts parts e :
  (9 <= length parts)%nat ->
  pmon_of_parts parts = Some e
  <-> field_is Py.int parts 0 (e_gpu e)
      /\ dash_or_int parts 1 (e_pid e)
      /\ dash_or_int parts 3 (e_sm e)
      /\ dash_or_int parts 4 (e_mem e)
      /\ parts !! 8%nat = Some (e_cmd e).
Proof.
  intros Hlen. unfold pmon_of_parts.
  rewrite bool_decide_eq_true_2 by done.
  rewrite <- bind_field, <- !dash_or_int_iff. split.
  - intros H.
    destruct (parts !! 0%nat ≫= Py.int) as [g|]; simpl in H; [|done].
    destruct (parts !! 1%nat) as [p1|]; simpl in *; [|done].
    destruct (if decide (p1 = "-") then _ else _) as [pid|]; simpl in H; [|done].
    destruct (parts !! 3%nat) as [p3|]; simpl in *; [|done].
    destruct (if decide (p3 = "-") then _ else _) as [sm|]; simpl in H; [|done].
    destruct (parts !! 4%nat) as [p4|]; simpl in *; [|done].
    destruct (if decide (p4 = "-") then _ else _) as [mem|]; simpl in H; [|done].
    destruct (parts !! 8%nat) as [c|]; simpl in H; [|done].
    by injection H as <-.
  - intros (H0 & H1 & H3 & H4 & H8). rewrite H0. simpl.
    destruct (parts !! 1%nat) as [p1|]; simpl in *; [|done]. rewrite H1. simpl.
    destruct (parts !! 3%nat) as [p3|]; simpl in *; [|done]. rewrite H3. simpl.
    destruct (parts !! 4%nat) as [p4|]; simpl in *; [|done]. rewrite H4. simpl.
    rewrite H8. simpl. by destruct e.
Qed.

(** X4. A line of the monitoring sample yields a sample exactly when it is
    no comment, has at least nine fields, its device index is an integer
    and its pid, sm and mem fields are integers or the sentinel; the
    sample then carries these values and the ninth field as command.
    Blank lines, comment lines and shorter lines yield nothing. *)
Theorem X4_pmon_line (ln : string) (e : pmon_entry) :
  pmon_of_line ln = Some e <-> pmon_line_converts ln e.
Proof.
  unfold pmon_line_converts. split.
  - intros H. unfold pmon_of_line in H. fold (pmon_parts ln) in H.
    destruct (Py.is_empty (Py.strip ln)) eqn:Ee; simpl in H; [done|].
    destruct (Py.startswith "#" (Py.strip ln)) eqn:Ec; [done|].
    case_bool_decide as Hlen; [done|].
    assert (9 <= length (pmon_parts ln))%nat as Hlen' by lia.
    split; [done|]. split; [done|]. by apply pmon_of_parts_converts.
  - intros (Hc & Hlen & H). rewrite pmon_of_line_parts by done.
    by apply pmon_of_parts_converts.
Qed.

Lemma X4_pmon_line_witness :
  pmon_line_converts pmon_busy sample_100
  /\ pmon_of_line pmon_header = None.
Proof.
  split.
  - apply (proj1 (X4_pmon_line pmon_busy sample_100)).
    vm_compute. reflexivity.
  - destruct (pmon_of_line pmon_header) as [e|] eqn:E; [|reflexivity].
    apply (proj1 (X4_pmon_line pmon_header e)) in E.
    destruct E as [Hc _]. vm_compute in Hc. discriminate Hc.
Defined.

(** ** More on the join *)

Lemma enrich_proc_keeps ix uuid_to_index p :
  let q := enrich_proc ix uuid_to_index p in
  p_pid q = p_pid p /\ p_name q = p_name p /\ p_mem q = p_mem p
  /\ p_uuid q = p_uuid p.
Proof. unfold enrich_proc. by destruct (ix !! _). Qed.

Lemma enrich_proc_idem ix uuid_to_index p :
  enrich_proc ix uuid_to_index (enrich_proc ix uuid_to_index p)
  = enrich_proc ix uuid_to_index p.
Proof.
  unfold enrich_proc at 2.
  destruct (ix !! (uuid_to_index !! p_uuid p, Some (p_pid p))) as [e|] eqn:E.
  - unfold enrich_proc. simpl. by rewrite E.
  - unfold enrich_proc. by rewrite E.
Qed.

(** X5. The join keeps the process list as it is but for the two
    utilization fields: same length, same order, same pid, name, memory
    and uuid at every position; and joining a second time with the same
    samples changes nothing more. *)
Theorem X5_enrich_keeps_records (procs : list proc) (pmon : list pmon_entry)
    (uuid_to_index : gmap string Z) :
  length (enrich_procs_with_pmon procs pmon uuid_to_index) = length procs
  /\ (fun p => (p_pid p, p_name p, p_mem p, p_uuid p))
       <$> enrich_procs_with_pmon procs pmon uuid_to_index
     = (fun p => (p_pid p, p_name p, p_mem p, p_uuid p)) <$> procs
  /\ enrich_procs_with_pmon (enrich_procs_with_pmon procs pmon uuid_to_index)
       pmon uuid_to_index
     = enrich_procs_with_pmon procs pmon uuid_to_index.
Proof.
  unfold enrich_procs_with_pmon. split; [by rewrite length_fmap|]. split.
  - rewrite <- list_fmap_compose. apply list_fmap_ext. intros _ p _. simpl.
    destruct (enrich_proc_keeps (pmon_index pmon) uuid_to_index p)
      as (-> & -> & -> & ->). done.
  - rewrite <- list_fmap_compose. apply list_fmap_ext. intros _ p _.
    apply enrich_proc_idem.
Qed.

(** X6. Without any sample the join changes no process record. *)
Theorem X6_enrich_no_samples (procs : list proc) (uuid_to_index : gmap string Z) :
  enrich_procs_with_pmon procs [] uuid_to_index = procs.
Proof.
  unfold enrich_procs_with_pmon.
  rewrite <- (list_fmap_id procs) at 2. apply list_fmap_ext. intros _ p _.
  unfold enrich_proc, pmon_index. simpl. by rewrite lookup_empty.
Qed.

(** ** More on the groups *)

Lemma uuid_index_map_in {F} (gpus : list (gpu F)) u i :
  uuid_index_map gpus !! u = Some i -> i ∈ g_index <$> gpus.
Proof.
  rewrite uuid_index_map_lookup.
  destruct (last _) as [g|] eqn:E; simpl; [|done].
  intros [= <-]. apply last_Some_elem_of, list_elem_of_filter in E as [_ Hin].
  by apply list_elem_of_fmap_2.
Qed.

(** X6. The uuid-to-index mapping resolves a uuid to the index of the
    last device row that carries it, and to nothing when no device row
    carries it. *)
Theorem X6_uuid_last_row_wins {F} (gpus : list (gpu F)) (u : string) :
  (forall gpus1 g gpus2,
     gpus = gpus1 ++ g :: gpus2 -> g_uuid g = u ->
     (forall g', g' ∈ gpus2 -> g_uuid g' <> u) ->
     uuid_index_map gpus !! u = Some (g_index g))
  /\ ((forall g, g ∈ gpus -> g_uuid g <> u) <-> uuid_index_map gpus !! u = None).
Proof.
  split.
  - intros gpus1 g gpus2 -> Hu Hlater. rewrite uuid_index_map_lookup.
    rewrite filter_app, filter_cons_True by done.
    rewrite (filter_all_false _ gpus2) by done.
    by rewrite last_snoc.
  - rewrite uuid_index_map_lookup. split.
    + intros Hnone. by rewrite filter_all_false.
    + intros Hl g Hg Hu.
      destruct (last (filter (fun g0 => g_uuid g0 = u) gpus)) eqn:E; [done|].
      apply last_None in E.
      assert (g ∈ filter (fun g0 => g_uuid g0 = u) gpus) as Hin
        by (by apply list_elem_of_filter).
      rewrite E in Hin. by apply not_elem_of_nil in Hin.
Qed.

Lemma X6_uuid_last_row_wins_witness :
  uuid_index_map [gpu_a0; gpu_1; mk_gpu "GPU-a" 7 "T4" 0 0 0 0 None None None None]
    !! "GPU-a" = Some 7.
Proof.
  apply (proj1 (X6_uuid_last_row_wins
                  [gpu_a0; gpu_1; mk_gpu "GPU-a" 7 "T4" 0 0 0 0 None None None None]
                  "GPU-a")
           [gpu_a0; gpu_1]
           (mk_gpu "GPU-a" 7 "T4" 0 0 0 0 None None None None) [] eq_refl eq_refl).
  intros g' Hg'. by apply not_elem_of_nil in Hg'.
Defined.

(** X7. Grouping loses and invents nothing: a joined process record is in
    the group of index [i] exactly when its uuid resolves to [i], as many
    times as it occurs among the joined records; a record whose uuid
    resolves to no device is in no group. *)
Theorem X7_groups_exact {F} (gpus : list (gpu F)) (procs : list proc)
    (pmon : list pmon_entry) :
  let joined := enrich_procs_with_pmon procs pmon (uuid_index_map gpus) in
  let per_gpu := (snapshot_of gpus procs pmon).2 in
  (forall q i, q ∈ joined -> uuid_index_map gpus !! p_uuid q = Some i ->
     exists l, per_gpu !! i = Some l
               /\ l ≡ₚ filter (fun p => uuid_index_map gpus !! p_uuid p = Some i) joined
               /\ q ∈ l)
  /\ (forall q i l, per_gpu !! i = Some l -> q ∈ l ->
        q ∈ joined /\ uuid_index_map gpus !! p_uuid q = Some i)
  /\ (forall q i l, uuid_index_map gpus !! p_uuid q = None ->
        per_gpu !! i = Some l -> q ∉ l).
Proof.
  intros joined per_gpu.
  assert (forall i l q, per_gpu !! i = Some l -> q ∈ l ->
            q ∈ joined /\ uuid_index_map gpus !! p_uuid q = Some i) as Hin.
  { intros i l q Hl Hq. unfold per_gpu in Hl. rewrite snapshot_of_lookup in Hl.
    case_decide; [|done]. injection Hl as <-. rewrite sort_desc_perm in Hq.
    apply list_elem_of_filter in Hq as [Hu Hq]. done. }
  split; [|split].
  - intros q i Hq Hu. eexists. unfold per_gpu. rewrite snapshot_of_lookup.
    rewrite decide_True by (by apply (uuid_index_map_in _ (p_uuid q))).
    split; [done|]. split; [apply sort_desc_perm|].
    rewrite sort_desc_perm. by apply list_elem_of_filter.
  - intros q i l Hl Hq. by apply (Hin i l q).
  - intros q i l Hu Hl Hq. destruct (Hin i l q Hl Hq) as [_ Hu']. congruence.
Qed.

(** ** More on the sort *)

Lemma lex_ge_trans a b c : lex_ge a b -> lex_ge b c -> lex_ge a c.
Proof. unfold lex_ge. lia. Qed.

Lemma insert_desc_Forall (P : proc -> Prop) x l :
  P x -> Forall P l -> Forall P (insert_desc x l).
Proof. intros Hx Hl. rewrite insert_desc_perm. by constructor. Qed.

Lemma insert_desc_strongly_sorted x l :
  StronglySorted before l -> StronglySorted before (insert_desc x l).
Proof.
  induction 1 as [|y l Hs IH Hall]; simpl.
  - by repeat constructor.
  - destruct (pair_ltb (sort_key x) (sort_key y)) eqn:E.
    + constructor; [done|]. apply insert_desc_Forall; [|done].
      unfold before. rewrite <- !sort_key_order_key. by apply pair_ltb_true.
    + assert (before x y) as Hxy.
      { unfold before. rewrite <- !sort_key_order_key. by apply pair_ltb_false. }
      constructor; [by constructor|]. constructor; [done|].
      eapply Forall_impl; [exact Hall|]. intros z Hz.
      by apply (lex_ge_trans _ (order_key y)).
Qed.

Lemma insert_desc_filter_key x l kv :
  filter (fun p => sort_key p = kv) (insert_desc x l)
  = filter (fun p => sort_key p = kv) (x :: l).
Proof.
  induction l as [|y l IH]; simpl; [done|].
  destruct (pair_ltb (sort_key x) (sort_key y)) eqn:E; [|done].
  rewrite (filter_cons _ y), IH, !(filter_cons _ x), (filter_cons _ y).
  destruct (decide (sort_key x = kv)) as [Hx|Hx]; [|done].
  destruct (decide (sort_key y = kv)) as [Hy|Hy]; [|done].
  exfalso. rewrite Hx, Hy in E. unfold pair_ltb in E.
  apply orb_true_iff in E as [E|E].
  - apply Z.ltb_lt in E. lia.
  - apply andb_true_iff in E as [_ E]. apply Z.ltb_lt in E. lia.
Qed.

(** X8. The sort of a group is total and stable: every process comes
    before every process of a smaller pair (utilization with null as
    zero, memory), not only before its neighbour, and the processes of
    equal pairs stay in the order in which the process query listed
    them. *)
Theorem X8_sort_total_and_stable (l : list proc) :
  StronglySorted before (sort_desc l)
  /\ forall kv, filter (fun p => sort_key p = kv) (sort_desc l)
                = filter (fun p => sort_key p = kv) l.
Proof.
  split.
  - induction l as [|x l IH]; [constructor|].
    unfold sort_desc in *. simpl. by apply insert_desc_strongly_sorted.
  - intros kv. induction l as [|x l IH]; [done|].
    unfold sort_desc in *. simpl.
    by rewrite insert_desc_filter_key, !filter_cons, IH.
Qed.

Lemma insert_desc_head x l :
  HdRel before x l -> insert_desc x l = x :: l.
Proof.
  intros [|y l' Hxy]; simpl; [done|].
  destruct (pair_ltb (sort_key x) (sort_key y)) eqn:E; [|done].
  exfalso. rewrite !sort_key_order_key in E.
  unfold before, lex_ge in Hxy. unfold pair_ltb in E.
  apply orb_true_iff in E as [E|E].
  - apply Z.ltb_lt in E. lia.
  - apply andb_true_iff in E as [E1 E2].
    apply Z.eqb_eq in E1. apply Z.ltb_lt in E2. lia.
Qed.

(** X9. A sequence that is already in order is left as it is by the sort,
    so sorting twice is sorting once. *)
Theorem X9_sort_fixes_sorted (l : list proc) :
  (Sorted before l -> sort_desc l = l)
  /\ sort_desc (sort_desc l) = sort_desc l.
Proof.
  assert (forall l', Sorted before l' -> sort_desc l' = l') as Hfix.
  { induction 1 as [|x l' Hs IH Hhd]; [done|].
    unfold sort_desc in *. simpl. rewrite IH. by apply insert_desc_head. }
  split; [apply Hfix|]. apply Hfix, sort_desc_sorted.
Qed.

Lemma X9_sort_fixes_sorted_witness :
  sort_desc [mk_proc 100 "python" 512 "GPU-1" (Some 80) (Some 40); proc_200]
  = [mk_proc 100 "python" 512 "GPU-1" (Some 80) (Some 40); proc_200].
Proof.
  apply (proj1 (X9_sort_fixes_sorted _)).
  constructor; [constructor; constructor|]. constructor.
  unfold before, lex_ge. simpl. lia.
Defined.

(** ** More on the executor *)

Lemma run_cmd_split decode check_output cmd argv :
  Shlex.split cmd = Return argv ->
  run_cmd decode check_output cmd
  = match check_output argv with
    | Return out => Return (decode out)
    | Raise (CalledProcessError _ output) => Return (decode output)
    | Raise FileNotFoundError => Return EmptyString
    | Raise e => Raise e
    end.
Proof. intros H. unfold run_cmd. by rewrite H. Qed.

Lemma pipeline_argv :
  Shlex.split gpu_cmd = Return gpu_argv
  /\ Shlex.split proc_cmd = Return proc_argv
  /\ Shlex.split pmon_cmd = Return pmon_argv.
Proof. repeat split; vm_compute; reflexivity. Qed.

Lemma run_cmd_Raise decode check_output cmd argv e :
  Shlex.split cmd = Return argv ->
  run_cmd decode check_output cmd = Raise e ->
  check_output argv = Raise e /\ ~ handled e.
Proof.
  intros Hs. rewrite (run_cmd_split _ _ _ _ Hs).
  destruct (check_output argv) as [out|[]]; intros [= <-]; (split; [done|]);
    intros [H|(rc & o & H)]; discriminate H.
Qed.

Lemma run_cmd_handled decode check_output cmd argv :
  Shlex.split cmd = Return argv ->
  (forall e, check_output argv = Raise e -> handled e) ->
  exists out, run_cmd decode check_output cmd = Return out.
Proof.
  intros Hs Hh. rewrite (run_cmd_split _ _ _ _ Hs).
  destruct (check_output argv) as [out|e] eqn:E; [by eexists|].
  destruct (Hh e eq_refl) as [->|(rc & o & ->)]; by eexists.
Qed.

Lemma snapshot_Raise {F} (py_float : string -> option F) decode check_output e :
  snapshot py_float decode check_output = Raise e ->
  run_cmd decode check_output gpu_cmd = Raise e
  \/ run_cmd decode check_output proc_cmd = Raise e
  \/ run_cmd decode check_output pmon_cmd = Raise e.
Proof.
  unfold snapshot, get_gpu_stats, get_compute_processes, get_pmon_once.
  destruct (run_cmd decode check_output gpu_cmd) as [d|e1]; simpl;
    [|intros [= ->]; by left].
  destruct (run_cmd decode check_output proc_cmd) as [p|e2]; simpl;
    [|intros [= ->]; by right; left].
  destruct (run_cmd decode check_output pmon_cmd) as [m|e3]; simpl;
    [intros H; discriminate H|intros [= ->]; by right; right].
Qed.

(** X10. [snapshot()] does not fail because the tool is missing or exits
    non-zero: an exception that it raises was raised by the launch of one
    of its three commands and is neither [FileNotFoundError] nor
    [CalledProcessError]; and when the launches fail in these two ways
    only, it returns a snapshot. *)
Theorem X10_snapshot_failures {F} (py_float : string -> option F)
    (decode : bytes -> string) (check_output : list string -> outcome bytes) :
  (forall e, snapshot py_float decode check_output = Raise e ->
     (exists argv, argv ∈ [gpu_argv; proc_argv; pmon_argv]
                   /\ check_output argv = Raise e)
     /\ ~ handled e)
  /\ ((forall argv e, check_output argv = Raise e -> handled e) ->
      exists devices per_gpu,
        snapshot py_float decode check_output = Return (devices, per_gpu)).
Proof.
  destruct pipeline_argv as (Hg & Hp & Hm). split.
  - intros e [H|[H|H]]%snapshot_Raise.
    + apply (run_cmd_Raise _ _ _ _ _ Hg) in H as [H Hn]. split; [|done].
      exists gpu_argv. split; [|done]. apply list_elem_of_here.
    + apply (run_cmd_Raise _ _ _ _ _ Hp) in H as [H Hn]. split; [|done].
      exists proc_argv. split; [|done].
      apply list_elem_of_further, list_elem_of_here.
    + apply (run_cmd_Raise _ _ _ _ _ Hm) in H as [H Hn]. split; [|done].
      exists pmon_argv. split; [|done].
      apply list_elem_of_further, list_elem_of_further, list_elem_of_here.
  - intros Hh.
    destruct (run_cmd_handled decode check_output _ _ Hg (Hh gpu_argv)) as [d Hd].
    destruct (run_cmd_handled decode check_output _ _ Hp (Hh proc_argv)) as [p Hp'].
    destruct (run_cmd_handled decode check_output _ _ Hm (Hh pmon_argv)) as [m Hm'].
    eexists _, _. apply snapshot_Return. exists d, p, m.
    repeat split; done.
Qed.

(** X11. When the tool is absent (every launch raises
    [FileNotFoundError]) [snapshot()] returns no device and no group. *)
Theorem X11_tool_absent {F} (py_float : string -> option F)
    (decode : bytes -> string) (check_output : list string -> outcome bytes) :
  (forall argv, check_output argv = Raise FileNotFoundError) ->
  snapshot py_float decode check_output = Return ([], ∅).
Proof.
  intros Habs. destruct pipeline_argv as (Hg & Hp & Hm).
  apply snapshot_Return. exists EmptyString, EmptyString, EmptyString.
  rewrite (run_cmd_split _ _ _ _ Hg), (run_cmd_split _ _ _ _ Hp),
    (run_cmd_split _ _ _ _ Hm), !Habs.
  repeat split; try done.
Qed.

Lemma X11_tool_absent_witness :
  snapshot decimal_float ascii_decode (fun _ => Raise FileNotFoundError)
  = Return ([], ∅).
Proof.
  exact (X11_tool_absent decimal_float ascii_decode
           (fun _ => Raise FileNotFoundError) (fun _ => eq_refl)).
Defined.

(** ** The process rows of the display *)

Lemma insert_desc_by_perm key x l : insert_desc_by key x l ≡ₚ x :: l.
Proof.
  induction l as [|y l IH]; simpl; [done|].
  destruct (pair_ltb _ _); [|done].
  rewrite IH. apply Permutation_swap.
Qed.

Lemma sorted_desc_by_perm key l : sorted_desc_by key l ≡ₚ l.
Proof.
  induction l as [|x l IH]; simpl; [done|].
  unfold sorted_desc_by in *. simpl. by rewrite insert_desc_by_perm, IH.
Qed.

Lemma util_key_default p :
  util_key p = (default 0 (p_sm p), default 0 (p_mem_util p)).
Proof. unfold util_key. by rewrite !or_zero_default. Qed.

Lemma insert_desc_by_util_hd a x l :
  before_util a x -> HdRel before_util a l ->
  HdRel before_util a (insert_desc_by util_key x l).
Proof.
  intros Hax Hal. destruct l as [|y l]; simpl.
  - by constructor.
  - destruct (pair_ltb _ _); constructor; [|done].
    by inversion Hal.
Qed.

Lemma insert_desc_by_util_sorted x l :
  Sorted before_util l -> Sorted before_util (insert_desc_by util_key x l).
Proof.
  induction 1 as [|y l Hs IH Hhd]; simpl.
  - by repeat constructor.
  - destruct (pair_ltb (util_key x) (util_key y)) eqn:E.
    + constructor; [done|]. apply insert_desc_by_util_hd; [|done].
      unfold before_util. rewrite <- !util_key_default. by apply pair_ltb_true.
    + constructor; [by constructor|]. constructor.
      unfold before_util. rewrite <- !util_key_default. by apply pair_ltb_false.
Qed.

Lemma sorted_desc_by_util_sorted l : Sorted before_util (sorted_desc_by util_key l).
Proof.
  induction l as [|x l IH]; [constructor|].
  unfold sorted_desc_by in *. simpl. by apply insert_desc_by_util_sorted.
Qed.

Lemma slice_to_prefix {A} n (l : list A) : slice_to n l `prefix_of` l.
Proof. unfold slice_to. case_decide; apply prefix_take. Qed.

Lemma Sorted_prefix {A} (R : A -> A -> Prop) (l1 l2 : list A) :
  l1 `prefix_of` l2 -> Sorted R l2 -> Sorted R l1.
Proof.
  intros [k ->]. induction l1 as [|x l1 IH]; intros Hs; [constructor|].
  simpl in Hs. inversion Hs as [|? ? Hs' Hhd]; subst.
  constructor; [by apply IH|].
  destruct l1; simpl in *; [constructor|]. inversion Hhd. by constructor.
Qed.

(** X12. The process rows that [draw] lists under a device are the first
    rows of its group: at most [max_procs] of them when [max_procs] is
    not negative, all but the last [-max_procs] when it is negative, none
    when the device has no group. Without the second sort they come in
    the order of the snapshot; with it they are ordered by (sm, memory
    utilization) descending, null read as zero. Every row shown is a
    process of the group. *)
Theorem X12_shown_procs {F} (per_gpu : gmap Z (list proc)) (g : gpu F)
    (max_procs : Z) (sort_by_util : bool) :
  shown_procs per_gpu g max_procs false `prefix_of` printed_procs per_gpu g
  /\ shown_procs per_gpu g max_procs true
     `prefix_of` sorted_desc_by util_key (printed_procs per_gpu g)
  /\ Sorted before_util (shown_procs per_gpu g max_procs true)
  /\ (forall p, p ∈ shown_procs per_gpu g max_procs sort_by_util ->
                p ∈ printed_procs per_gpu g)
  /\ (0 <= max_procs ->
      length (shown_procs per_gpu g max_procs sort_by_util)
      = Nat.min (Z.to_nat max_procs) (length (printed_procs per_gpu g)))
  /\ (max_procs < 0 ->
      length (shown_procs per_gpu g max_procs sort_by_util)
      = (length (printed_procs per_gpu g) - Z.to_nat (- max_procs))%nat)
  /\ (per_gpu !! g_index g = None ->
      shown_procs per_gpu g max_procs sort_by_util = []).
Proof.
  unfold shown_procs, printed_procs.
  set (group := default [] (per_gpu !! g_index g)).
  assert (length (if sort_by_util then sorted_desc_by util_key group else group)
          = length group) as Hlen.
  { destruct sort_by_util; [|done]. by rewrite sorted_desc_by_perm. }
  split; [apply slice_to_prefix|]. split; [apply slice_to_prefix|].
  split; [|split; [|split; [|split]]].
  - eapply Sorted_prefix; [apply slice_to_prefix|].
    apply sorted_desc_by_util_sorted.
  - intros p Hp.
    eapply elem_of_prefix in Hp; [|apply slice_to_prefix].
    destruct sort_by_util; [|done]. by rewrite sorted_desc_by_perm in Hp.
  - intros Hn. unfold slice_to. rewrite decide_True by done.
    rewrite length_take, Hlen. done.
  - intros Hn. unfold slice_to. rewrite decide_False by lia.
    rewrite length_take, Hlen. lia.
  - intros Hnone. unfold group. rewrite Hnone. simpl.
    destruct sort_by_util; unfold slice_to; case_decide; simpl;
      first [reflexivity | apply take_nil].
Qed.

Lemma X12_shown_procs_witness :
  shown_procs shown_group gpu_1 2 true
  = [proc_300; mk_proc 100 "python" 512 "GPU-1" (Some 80) (Some 40)]
  /\ length (shown_procs shown_group gpu_1 2 true)
     = Nat.min (Z.to_nat 2) (length (printed_procs shown_group gpu_1))
  /\ length (shown_procs shown_group gpu_1 (-1) false)
     = (length (printed_procs shown_group gpu_1) - Z.to_nat (- -1))%nat
  /\ shown_procs shown_group gpu_c 5 false = [].
Proof.
  split; [vm_compute; reflexivity|].
  split; [|split].
  - apply (X12_shown_procs shown_group gpu_1 2 true). lia.
  - apply (X12_shown_procs shown_group gpu_1 (-1) false). lia.
  - apply (X12_shown_procs shown_group gpu_c 5 false). vm_compute. reflexivity.
Defined.

(** ** Blank outputs *)

Lemma rstrip_all_space s :
  all_space s = true -> Py.rstrip_by Py.is_space s = EmptyString.
Proof.
  unfold all_space. induction s as [|c s IH]; simpl; [done|].
  intros [Hc Hs]%andb_true_iff. by rewrite Hc, (IH Hs).
Qed.

Lemma strip_all_space s : all_space s = true -> Py.strip s = EmptyString.
Proof. intros H. unfold Py.strip. by rewrite rstrip_all_space. Qed.

Lemma splitlines_all_space b s :
  all_space s = true -> Forall (fun ln => all_space ln = true) (Py.splitlines_from b s).
Proof.
  unfold all_space. revert b. induction s as [|c s IH]; intros b; simpl; [done|].
  intros [Hc Hs]%andb_true_iff.
  destruct (b && Ascii.eqb c "010"); [by apply IH|].
  destruct (Py.is_linebreak c).
  - constructor; [done|]. by apply IH.
  - specialize (IH false Hs). destruct (Py.splitlines_from false s) as [|h t].
    + repeat constructor. simpl. by rewrite Hc.
    + inversion IH as [|? ? Hh Ht]; subst. constructor; [|done].
      simpl. by rewrite Hc, Hh.
Qed.

(** X13. A tool output made of blanks only (or empty) gives none of the
    three readers anything: no device, no process, no sample. *)
Theorem X13_blank_output {F} (py_float : string -> option F) (out : string) :
  all_space out = true ->
  parse_csv out = []
  /\ gpu_stats_of py_float out = []
  /\ compute_processes_of out = []
  /\ pmon_of out = [].
Proof.
  intros Hb.
  assert (parse_csv out = []) as Hcsv.
  { unfold parse_csv. by rewrite strip_all_space. }
  split; [done|]. split; [|split].
  - unfold gpu_stats_of. by rewrite Hcsv.
  - unfold compute_processes_of. by rewrite Hcsv.
  - unfold pmon_of, pmon_of_lines, Py.splitlines.
    pose proof (splitlines_all_space false out Hb) as Hl.
    induction Hl as [|ln lines Hln Hlines IH]; [done|].
    simpl. unfold pmon_of_line at 1. by rewrite strip_all_space.
Qed.

Lemma X13_blank_output_witness :
  pmon_of (nl "   " "  ") = []
  /\ compute_processes_of (nl "   " "  ") = [].
Proof.
  assert (all_space (nl "   " "  ") = true) as Hb by (vm_compute; reflexivity).
  destruct (X13_blank_output decimal_float (nl "   " "  ") Hb)
    as (_ & _ & Hp & Hm).
  split; [exact Hm|exact Hp].
Defined.

Lemma X7_groups_exact_witness :
  exists l,
    (snapshot_of (gpu_stats_of decimal_float join_dev)
       (compute_processes_of join_procs) (pmon_of pmon_busy)).2 !! 0 = Some l
    /\ proc_200 ∈ l.
Proof.
  assert (proc_200 ∈ enrich_procs_with_pmon (compute_processes_of join_procs)
                      (pmon_of pmon_busy)
                      (uuid_index_map (gpu_stats_of decimal_float join_dev)))
    as Hin.
  { assert (enrich_procs_with_pmon (compute_processes_of join_procs)
              (pmon_of pmon_busy)
              (uuid_index_map (gpu_stats_of decimal_float join_dev))
            = [mk_proc 100 "python" 512 "GPU-1" (Some 80) (Some 40); proc_200])
      as -> by (vm_compute; reflexivity).
    apply list_elem_of_further, list_elem_of_here. }
  assert (uuid_index_map (gpu_stats_of decimal_float join_dev) !! p_uuid proc_200
          = Some 0) as Hu by (vm_compute; reflexivity).
  destruct (proj1 (X7_groups_exact (gpu_stats_of decimal_float join_dev)
                     (compute_processes_of join_procs) (pmon_of pmon_busy))
              proc_200 0 Hin Hu) as (l & Hl & _ & Hq).
  exists l. split; [exact Hl|exact Hq].
Defined.

Lemma X10_snapshot_failures_witness :
  exists devices per_gpu,
    snapshot decimal_float ascii_decode (failing_tool join_dev join_procs pmon_busy)
    = Return (devices, per_gpu).
Proof.
  apply (proj2 (X10_snapshot_failures decimal_float ascii_decode
                  (failing_tool join_dev join_procs pmon_busy))).
  intros argv e. unfold failing_tool.
  destruct (canned_tool join_dev join_procs pmon_busy argv) as [b|e'] eqn:E.
  - intros [= <-]. right. by eexists _, _.
  - exfalso. unfold canned_tool in E.
    destruct argv as [|? [|? [|? [|]]]]; try discriminate E.
    destruct (String.prefix _ _); discriminate E.
Defined.
